(** * Backlight interface selection (drivers/acpi/video_detect.c)

    A shallow embedding of the backlight-type detection code: the command
    line parser, the DMI quirk table and its callbacks, the one-time
    initialisation block, the precedence cascade of
    [__acpi_video_get_backlight_type] and the runtime override
    [acpi_video_set_dmi_backlight_type].

    The file-scope and function-static variables of the C file are the
    fields of one [state] record that every function threads explicitly.
    What the C code asks of the rest of the kernel (the boot parameter, the
    DMI strings, the ACPI namespace, the WMI method, the PCI bus, the _OSI
    level) is read from a [platform] record.  The mutex around the first
    half of the query serialises callers; the embedding is of one caller at
    a time, so a call is a function from state to state. *)

From Stdlib Require Import ZArith List String Ascii Bool Lia Permutation.
Import ListNotations.

Open Scope string_scope.
Open Scope Z_scope.

(** ** The backlight type *)

(** Modelled from the spec: [enum acpi_backlight_type] is declared in
    <acpi/video.h>, which is not part of the sources at hand.  The
    constructors are the enumerators video_detect.c names; the spec lists
    the same six values (Undefined, Vendor, Video, Native,
    VendorEmbeddedController, None). *)
Inductive acpi_backlight_type : Set :=
  | acpi_backlight_undef
  | acpi_backlight_none
  | acpi_backlight_video
  | acpi_backlight_vendor
  | acpi_backlight_native
  | acpi_backlight_nvidia_wmi_ec.

Definition backlight_eqb (a b : acpi_backlight_type) : bool :=
  match a, b with
  | acpi_backlight_undef, acpi_backlight_undef
  | acpi_backlight_none, acpi_backlight_none
  | acpi_backlight_video, acpi_backlight_video
  | acpi_backlight_vendor, acpi_backlight_vendor
  | acpi_backlight_native, acpi_backlight_native
  | acpi_backlight_nvidia_wmi_ec, acpi_backlight_nvidia_wmi_ec => true
  | _, _ => false
  end.

(** ** C strings *)

(** A [string] stands for a char buffer.  Reading it as a C string stops
    at the first NUL byte, or at the end of the buffer. *)
Definition peek (s : string) : Z :=
  match s with
  | EmptyString => 0
  | String c _ => Z.of_N (N_of_ascii c)
  end.

Definition advance (s : string) : string :=
  match s with
  | EmptyString => EmptyString
  | String _ s' => s'
  end.

(** The bytes before the terminator. *)
Fixpoint cstr (s : string) : string :=
  match s with
  | EmptyString => EmptyString
  | String c s' =>
      if Z.of_N (N_of_ascii c) =? 0 then EmptyString else String c (cstr s')
  end.

(** Modelled from the spec: [strcmp] lives in lib/string.c, outside the
    sources at hand; the spec asks for a case-sensitive exact match.  The
    loop is the usual one: compare byte by byte, stop at the first
    difference or at the terminator. *)
Fixpoint strcmp (cs ct : string) : Z :=
  let c1 := peek cs in
  let c2 := peek ct in
  if negb (c1 =? c2) then (if c1 <? c2 then -1 else 1)
  else if c1 =? 0 then 0
  else match cs with
       | EmptyString => 0
       | String _ cs' => strcmp cs' (advance ct)
       end.

(** Modelled from the spec: [strstr] (lib/string.c) as the test "the
    needle occurs somewhere in the haystack", which is all that the DMI
    matcher asks of it. *)
Fixpoint strstr (haystack needle : string) : bool :=
  if prefix needle haystack then true
  else match haystack with
       | EmptyString => false
       | String _ h' => strstr h' needle
       end.

(** ** What the rest of the kernel provides *)

Inductive dmi_field : Set :=
  | DMI_SYS_VENDOR
  | DMI_PRODUCT_NAME
  | DMI_PRODUCT_VERSION
  | DMI_BOARD_NAME
  | DMI_BIOS_VERSION.

(** One object met by [acpi_walk_namespace]: what the helpers that
    [find_video] calls on its handle answer. *)
Record acpi_handle : Set := {
  (** [acpi_fetch_acpi_dev (handle)] is not NULL *)
  acpi_fetch_acpi_dev : bool;
  (** [acpi_match_device_ids (acpi_dev, video_ids)]; 0 on a match *)
  acpi_match_device_ids : Z;
  (** [acpi_get_pci_dev (handle)] is not NULL *)
  acpi_get_pci_dev : bool;
  (** [acpi_is_video_device (handle)], a mask of ACPI_VIDEO_* bits *)
  acpi_is_video_device : Z
}.

Record platform : Type := {
  (** the buffer behind the [acpi_backlight=] boot parameter *)
  acpi_video_backlight_string : string;
  (** the DMI identification strings; [None] for a missing one *)
  dmi_ident : dmi_field -> option string;
  (** the device objects of the ACPI namespace, in walk order *)
  acpi_namespace : list acpi_handle;
  (** [wmi_evaluate_method (WMI_BRIGHTNESS_GUID, 0,
      WMI_BRIGHTNESS_METHOD_SOURCE, ...)]: [None] on ACPI_FAILURE,
      otherwise the [ret] field of the buffer *)
  wmi_brightness_source : option Z;
  (** [pci_get_device (vendor, device, NULL)] is not NULL *)
  pci_get_device : Z -> Z -> bool;
  acpi_osi_is_win8 : bool;
  acpi_dev_found : string -> bool
}.

(** Constants and configuration switches that come from headers and
    Kconfig, none of which are among the sources at hand. *)
Record headers : Set := {
  CONFIG_X86 : bool;
  ACPI_VIDEO_BACKLIGHT : Z;
  WMI_BRIGHTNESS_SOURCE_EC : Z;
  PCI_VENDOR_ID_TRIDENT : Z
}.

(** ** The DMI quirk table: its entries and callbacks *)

(** Modelled from the spec: [struct dmi_strmatch] and the [DMI_MATCH] and
    [DMI_EXACT_MATCH] initialisers are declared in headers outside the
    sources at hand.  A predicate names a field, a pattern and whether the
    match is exact or by containment (the spec's matchKind). *)
Record dmi_strmatch : Set := {
  slot : dmi_field;
  substr : string;
  exact_match : bool
}.

Definition DMI_MATCH (a : dmi_field) (b : string) : dmi_strmatch :=
  {| slot := a; substr := b; exact_match := false |}.

Definition DMI_EXACT_MATCH (a : dmi_field) (b : string) : dmi_strmatch :=
  {| slot := a; substr := b; exact_match := true |}.

(** What one run of a table callback does: the value it stores into
    [acpi_backlight_dmi], if it stores one, and the [int] it returns. *)
Record cb_result : Set := {
  cb_store : option acpi_backlight_type;
  cb_ret : Z
}.

(** The callbacks never look at their [const struct dmi_system_id *d]
    argument, so it is left out. *)
Record dmi_system_id : Type := {
  callback : headers -> platform -> cb_result;
  ident : option string;
  matches : list dmi_strmatch
}.

Definition video_detect_force_vendor (_ : headers) (_ : platform) : cb_result :=
  {| cb_store := Some acpi_backlight_vendor; cb_ret := 0 |}.

Definition video_detect_force_video (_ : headers) (_ : platform) : cb_result :=
  {| cb_store := Some acpi_backlight_video; cb_ret := 0 |}.

Definition video_detect_force_native (_ : headers) (_ : platform) : cb_result :=
  {| cb_store := Some acpi_backlight_native; cb_ret := 0 |}.

(** Looks for the Trident CyberBlade XP4m32 to confirm a Portege R100. *)
Definition video_detect_portege_r100 (hdr : headers) (m : platform) : cb_result :=
  let dev := pci_get_device m (PCI_VENDOR_ID_TRIDENT hdr) 0x2100 in
  {| cb_store := if dev then Some acpi_backlight_vendor else None;
     cb_ret := 0 |}.

Definition video_detect_dmi_table : list dmi_system_id :=
  [
    {| callback := video_detect_force_vendor; ident := None;
       matches :=
        [DMI_MATCH DMI_SYS_VENDOR "SAMSUNG ELECTRONICS CO., LTD.";
         DMI_MATCH DMI_PRODUCT_NAME "X360";
         DMI_MATCH DMI_BOARD_NAME "X360"] |};
    {| callback := video_detect_force_vendor; ident := None;
       matches :=
        [DMI_MATCH DMI_SYS_VENDOR "ASUSTeK Computer Inc.";
         DMI_MATCH DMI_PRODUCT_NAME "UL30VT"] |};
    {| callback := video_detect_force_vendor; ident := None;
       matches :=
        [DMI_MATCH DMI_SYS_VENDOR "ASUSTeK Computer Inc.";
         DMI_MATCH DMI_PRODUCT_NAME "UL30A"] |};
    {| callback := video_detect_force_vendor; ident := None;
       matches :=
        [DMI_MATCH DMI_SYS_VENDOR "GIGABYTE";
         DMI_MATCH DMI_PRODUCT_NAME "GB-BXBT-2807"] |};
    {| callback := video_detect_force_vendor; ident := None;
       matches :=
        [DMI_MATCH DMI_SYS_VENDOR "Sony Corporation";
         DMI_MATCH DMI_PRODUCT_NAME "VPCEH3U1E"] |};
    {| callback := video_detect_force_native; ident := None;
       matches :=
        [DMI_MATCH DMI_SYS_VENDOR "Dell Inc.";
         DMI_MATCH DMI_PRODUCT_NAME "Vostro 15 3535"] |};
    {| callback := video_detect_portege_r100; ident := None;
       matches :=
        [DMI_MATCH DMI_SYS_VENDOR "TOSHIBA";
         DMI_MATCH DMI_PRODUCT_NAME "Portable PC";
         DMI_MATCH DMI_PRODUCT_VERSION "Version 1.0";
         DMI_MATCH DMI_BOARD_NAME "Portable PC"] |};
    {| callback := video_detect_force_video; ident := None;
       matches :=
        [DMI_MATCH DMI_SYS_VENDOR "Apple Inc.";
         DMI_MATCH DMI_PRODUCT_NAME "iMac14,1"] |};
    {| callback := video_detect_force_video; ident := None;
       matches :=
        [DMI_MATCH DMI_SYS_VENDOR "Apple Inc.";
         DMI_MATCH DMI_PRODUCT_NAME "iMac14,2"] |};
    {| callback := video_detect_force_video; ident := None;
       matches :=
        [DMI_MATCH DMI_SYS_VENDOR "LENOVO";
         DMI_MATCH DMI_PRODUCT_VERSION "ThinkPad W530"] |};
    {| callback := video_detect_force_video; ident := None;
       matches :=
        [DMI_MATCH DMI_SYS_VENDOR "LENOVO";
         DMI_MATCH DMI_PRODUCT_VERSION "ThinkPad T420"] |};
    {| callback := video_detect_force_video; ident := None;
       matches :=
        [DMI_MATCH DMI_SYS_VENDOR "LENOVO";
         DMI_MATCH DMI_PRODUCT_VERSION "ThinkPad T520"] |};
    {| callback := video_detect_force_video; ident := None;
       matches :=
        [DMI_MATCH DMI_SYS_VENDOR "LENOVO";
         DMI_MATCH DMI_PRODUCT_VERSION "ThinkPad X201s"] |};
    {| callback := video_detect_force_video; ident := None;
       matches :=
        [DMI_MATCH DMI_SYS_VENDOR "LENOVO";
         DMI_MATCH DMI_PRODUCT_VERSION "ThinkPad X201T"] |};
    {| callback := video_detect_force_video; ident := None;
       matches :=
        [DMI_MATCH DMI_SYS_VENDOR "Hewlett-Packard";
         DMI_MATCH DMI_PRODUCT_NAME "HP ENVY 15 Notebook PC"] |};
    {| callback := video_detect_force_video; ident := None;
       matches :=
        [DMI_MATCH DMI_SYS_VENDOR "SAMSUNG ELECTRONICS CO., LTD.";
         DMI_MATCH DMI_PRODUCT_NAME "870Z5E/880Z5E/680Z5E"] |};
    {| callback := video_detect_force_video; ident := None;
       matches :=
        [DMI_MATCH DMI_SYS_VENDOR "SAMSUNG ELECTRONICS CO., LTD.";
         DMI_MATCH DMI_PRODUCT_NAME "370R4E/370R4V/370R5E/3570RE/370R5V"] |};
    {| callback := video_detect_force_video; ident := None;
       matches :=
        [DMI_MATCH DMI_SYS_VENDOR "SAMSUNG ELECTRONICS CO., LTD.";
         DMI_MATCH DMI_PRODUCT_NAME "3570R/370R/470R/450R/510R/4450RV"] |};
    {| callback := video_detect_force_video; ident := None;
       matches :=
        [DMI_MATCH DMI_SYS_VENDOR "SAMSUNG ELECTRONICS CO., LTD.";
         DMI_MATCH DMI_PRODUCT_NAME "670Z5E"] |};
    {| callback := video_detect_force_video; ident := None;
       matches :=
        [DMI_MATCH DMI_SYS_VENDOR "SAMSUNG ELECTRONICS CO., LTD.";
         DMI_MATCH DMI_PRODUCT_NAME "730U3E/740U3E"] |};
    {| callback := video_detect_force_video; ident := None;
       matches :=
        [DMI_MATCH DMI_SYS_VENDOR "SAMSUNG ELECTRONICS CO., LTD.";
         DMI_MATCH DMI_PRODUCT_NAME "900X3C/900X3D/900X3E/900X4C/900X4D"] |};
    {| callback := video_detect_force_video; ident := None;
       matches :=
        [DMI_MATCH DMI_SYS_VENDOR "Dell Inc.";
         DMI_MATCH DMI_PRODUCT_NAME "XPS L421X"] |};
    {| callback := video_detect_force_video; ident := None;
       matches :=
        [DMI_MATCH DMI_SYS_VENDOR "Dell Inc.";
         DMI_MATCH DMI_PRODUCT_NAME "XPS L521X"] |};
    {| callback := video_detect_force_video; ident := None;
       matches :=
        [DMI_MATCH DMI_SYS_VENDOR "SAMSUNG ELECTRONICS CO., LTD.";
         DMI_MATCH DMI_PRODUCT_NAME "530U4E/540U4E"] |};
    {| callback := video_detect_force_video; ident := None;
       matches :=
        [DMI_MATCH DMI_SYS_VENDOR "Hewlett-Packard";
         DMI_MATCH DMI_PRODUCT_NAME "HP 635 Notebook PC"] |};
    {| callback := video_detect_force_native; ident := None;
       matches :=
        [DMI_MATCH DMI_SYS_VENDOR "LENOVO";
         DMI_MATCH DMI_BOARD_NAME "Lenovo IdeaPad S405"] |};
    {| callback := video_detect_force_native; ident := None;
       matches :=
        [DMI_MATCH DMI_SYS_VENDOR "LENOVO";
         DMI_MATCH DMI_PRODUCT_VERSION "IdeaPad Z470"] |};
    {| callback := video_detect_force_native; ident := None;
       matches :=
        [DMI_MATCH DMI_SYS_VENDOR "LENOVO";
         DMI_MATCH DMI_PRODUCT_NAME "102434U"] |};
    {| callback := video_detect_force_native; ident := None;
       matches :=
        [DMI_MATCH DMI_SYS_VENDOR "LENOVO";
         DMI_MATCH DMI_PRODUCT_NAME "81FS"] |};
    {| callback := video_detect_force_native; ident := None;
       matches :=
        [DMI_MATCH DMI_SYS_VENDOR "LENOVO";
         DMI_MATCH DMI_PRODUCT_NAME "82BK"] |};
    {| callback := video_detect_force_native; ident := None;
       matches :=
        [DMI_MATCH DMI_SYS_VENDOR "LENOVO";
         DMI_MATCH DMI_PRODUCT_NAME "3371"] |};
    {| callback := video_detect_force_native; ident := None;
       matches :=
        [DMI_MATCH DMI_SYS_VENDOR "Apple Inc.";
         DMI_MATCH DMI_PRODUCT_NAME "iMac11,3"] |};
    {| callback := video_detect_force_native; ident := None;
       matches :=
        [DMI_MATCH DMI_SYS_VENDOR "Apple Inc.";
         DMI_MATCH DMI_PRODUCT_NAME "iMac12,1"] |};
    {| callback := video_detect_force_native; ident := None;
       matches :=
        [DMI_MATCH DMI_SYS_VENDOR "Apple Inc.";
         DMI_MATCH DMI_PRODUCT_NAME "iMac12,2"] |};
    {| callback := video_detect_force_native; ident := None;
       matches :=
        [DMI_MATCH DMI_SYS_VENDOR "Apple Inc.";
         DMI_MATCH DMI_PRODUCT_NAME "MacBookPro12,1"] |};
    {| callback := video_detect_force_native; ident := None;
       matches :=
        [DMI_MATCH DMI_SYS_VENDOR "Dell Inc.";
         DMI_MATCH DMI_PRODUCT_NAME "Inspiron N4010"] |};
    {| callback := video_detect_force_native; ident := None;
       matches :=
        [DMI_MATCH DMI_SYS_VENDOR "Dell Inc.";
         DMI_MATCH DMI_PRODUCT_NAME "Vostro V131"] |};
    {| callback := video_detect_force_native; ident := None;
       matches :=
        [DMI_MATCH DMI_SYS_VENDOR "Dell Inc.";
         DMI_MATCH DMI_PRODUCT_NAME "Dell System XPS L702X"] |};
    {| callback := video_detect_force_native; ident := None;
       matches :=
        [DMI_MATCH DMI_SYS_VENDOR "Dell Inc.";
         DMI_MATCH DMI_PRODUCT_NAME "Precision 7510"] |};
    {| callback := video_detect_force_native; ident := None;
       matches :=
        [DMI_MATCH DMI_SYS_VENDOR "Dell Inc.";
         DMI_MATCH DMI_PRODUCT_NAME "Studio 1569"] |};
    {| callback := video_detect_force_native; ident := None;
       matches :=
        [DMI_MATCH DMI_SYS_VENDOR "Acer";
         DMI_MATCH DMI_PRODUCT_NAME "Aspire 3830TG"] |};
    {| callback := video_detect_force_native; ident := None;
       matches :=
        [DMI_MATCH DMI_SYS_VENDOR "Acer";
         DMI_MATCH DMI_PRODUCT_NAME "Aspire 5738";
         DMI_MATCH DMI_BOARD_NAME "JV50"] |};
    {| callback := video_detect_force_native; ident := None;
       matches :=
        [DMI_MATCH DMI_SYS_VENDOR "Acer";
         DMI_MATCH DMI_PRODUCT_NAME "TravelMate 5735Z";
         DMI_MATCH DMI_BOARD_NAME "BA51_MV"] |};
    {| callback := video_detect_force_native; ident := None;
       matches :=
        [DMI_MATCH DMI_SYS_VENDOR "ASUSTeK COMPUTER INC.";
         DMI_MATCH DMI_PRODUCT_NAME "GA401"] |};
    {| callback := video_detect_force_native; ident := None;
       matches :=
        [DMI_MATCH DMI_SYS_VENDOR "ASUSTeK COMPUTER INC.";
         DMI_MATCH DMI_PRODUCT_NAME "GA502"] |};
    {| callback := video_detect_force_native; ident := None;
       matches :=
        [DMI_MATCH DMI_SYS_VENDOR "ASUSTeK COMPUTER INC.";
         DMI_MATCH DMI_PRODUCT_NAME "GA503"] |};
    {| callback := video_detect_force_native; ident := Some "Clevo NL5xRU";
       matches :=
        [DMI_MATCH DMI_BOARD_NAME "NL5xRU"] |};
    {| callback := video_detect_force_native; ident := Some "Clevo NL5xRU";
       matches :=
        [DMI_MATCH DMI_SYS_VENDOR "TUXEDO";
         DMI_MATCH DMI_BOARD_NAME "AURA1501"] |};
    {| callback := video_detect_force_native; ident := Some "Clevo NL5xRU";
       matches :=
        [DMI_MATCH DMI_SYS_VENDOR "TUXEDO";
         DMI_MATCH DMI_BOARD_NAME "EDUBOOK1502"] |};
    {| callback := video_detect_force_native; ident := Some "Clevo NL5xNU";
       matches :=
        [DMI_MATCH DMI_BOARD_NAME "NL5xNU"] |};
    {| callback := video_detect_force_native; ident := Some "TongFang PF5PU1G";
       matches :=
        [DMI_MATCH DMI_BOARD_NAME "PF5PU1G"] |};
    {| callback := video_detect_force_native; ident := Some "TongFang PF4NU1F";
       matches :=
        [DMI_MATCH DMI_BOARD_NAME "PF4NU1F"] |};
    {| callback := video_detect_force_native; ident := Some "TongFang PF4NU1F";
       matches :=
        [DMI_MATCH DMI_SYS_VENDOR "TUXEDO";
         DMI_MATCH DMI_BOARD_NAME "PULSE1401"] |};
    {| callback := video_detect_force_native; ident := Some "TongFang PF5NU1G";
       matches :=
        [DMI_MATCH DMI_BOARD_NAME "PF5NU1G"] |};
    {| callback := video_detect_force_native; ident := Some "TongFang PF5NU1G";
       matches :=
        [DMI_MATCH DMI_SYS_VENDOR "TUXEDO";
         DMI_MATCH DMI_BOARD_NAME "PULSE1501"] |};
    {| callback := video_detect_force_native; ident := Some "TongFang PF5LUXG";
       matches :=
        [DMI_MATCH DMI_BOARD_NAME "PF5LUXG"] |};
    {| callback := video_detect_force_vendor; ident := None;
       matches :=
        [DMI_EXACT_MATCH DMI_SYS_VENDOR "Intel Corporation";
         DMI_EXACT_MATCH DMI_PRODUCT_NAME "CHERRYVIEW D1 PLATFORM";
         DMI_EXACT_MATCH DMI_PRODUCT_VERSION "YETI-11"] |};
    {| callback := video_detect_force_vendor; ident := None;
       matches :=
        [DMI_MATCH DMI_SYS_VENDOR "Intel Corp.";
         DMI_MATCH DMI_PRODUCT_NAME "VALLEYVIEW C0 PLATFORM";
         DMI_MATCH DMI_BOARD_NAME "BYT-T FFD8";
         DMI_MATCH DMI_BIOS_VERSION "BLADE_21"] |};
    {| callback := video_detect_force_vendor; ident := None;
       matches :=
        [DMI_MATCH DMI_SYS_VENDOR "Intel Corporation";
         DMI_MATCH DMI_PRODUCT_NAME "CHERRYVIEW D1 PLATFORM";
         DMI_MATCH DMI_PRODUCT_VERSION "Blade3-10A-001"] |};
    {| callback := video_detect_force_vendor; ident := None;
       matches :=
        [DMI_MATCH DMI_SYS_VENDOR "Xiaomi Inc";
         DMI_MATCH DMI_PRODUCT_NAME "Mipad2"] |}
  ].

(** ** The variables of the file *)

(** The calls a function body makes that leave a mark outside the pure
    cascade: the four steps of the initialisation block, each table
    callback that is run, and the request to drop the acpi-video
    backlight.  They are recorded newest first. *)
Inductive event : Type :=
  | ev_acpi_video_parse_cmdline
  | ev_dmi_check_system
  | ev_dmi_callback (d : dmi_system_id)
  | ev_acpi_walk_namespace
  | ev_nvidia_wmi_ec_supported
  | ev_acpi_video_unregister_backlight.

Record state : Type := {
  acpi_backlight_cmdline : acpi_backlight_type;
  acpi_backlight_dmi : acpi_backlight_type;
  nvidia_wmi_ec_present : bool;
  native_available : bool;
  init_done : bool;
  video_caps : Z;
  calls : list event
}.

(** The initialisers of the C file. *)
Definition boot : state :=
  {| acpi_backlight_cmdline := acpi_backlight_undef;
     acpi_backlight_dmi := acpi_backlight_undef;
     nvidia_wmi_ec_present := false;
     native_available := false;
     init_done := false;
     video_caps := 0;
     calls := [] |}.

Definition set_acpi_backlight_cmdline (v : acpi_backlight_type) (st : state) : state :=
  {| acpi_backlight_cmdline := v;
     acpi_backlight_dmi := acpi_backlight_dmi st;
     nvidia_wmi_ec_present := nvidia_wmi_ec_present st;
     native_available := native_available st;
     init_done := init_done st;
     video_caps := video_caps st;
     calls := calls st |}.

Definition set_acpi_backlight_dmi (v : acpi_backlight_type) (st : state) : state :=
  {| acpi_backlight_cmdline := acpi_backlight_cmdline st;
     acpi_backlight_dmi := v;
     nvidia_wmi_ec_present := nvidia_wmi_ec_present st;
     native_available := native_available st;
     init_done := init_done st;
     video_caps := video_caps st;
     calls := calls st |}.

Definition set_nvidia_wmi_ec_present (v : bool) (st : state) : state :=
  {| acpi_backlight_cmdline := acpi_backlight_cmdline st;
     acpi_backlight_dmi := acpi_backlight_dmi st;
     nvidia_wmi_ec_present := v;
     native_available := native_available st;
     init_done := init_done st;
     video_caps := video_caps st;
     calls := calls st |}.

Definition set_native_available (v : bool) (st : state) : state :=
  {| acpi_backlight_cmdline := acpi_backlight_cmdline st;
     acpi_backlight_dmi := acpi_backlight_dmi st;
     nvidia_wmi_ec_present := nvidia_wmi_ec_present st;
     native_available := v;
     init_done := init_done st;
     video_caps := video_caps st;
     calls := calls st |}.

Definition set_init_done (v : bool) (st : state) : state :=
  {| acpi_backlight_cmdline := acpi_backlight_cmdline st;
     acpi_backlight_dmi := acpi_backlight_dmi st;
     nvidia_wmi_ec_present := nvidia_wmi_ec_present st;
     native_available := native_available st;
     init_done := v;
     video_caps := video_caps st;
     calls := calls st |}.

Definition set_video_caps (v : Z) (st : state) : state :=
  {| acpi_backlight_cmdline := acpi_backlight_cmdline st;
     acpi_backlight_dmi := acpi_backlight_dmi st;
     nvidia_wmi_ec_present := nvidia_wmi_ec_present st;
     native_available := native_available st;
     init_done := init_done st;
     video_caps := v;
     calls := calls st |}.

Definition record_call (e : event) (st : state) : state :=
  {| acpi_backlight_cmdline := acpi_backlight_cmdline st;
     acpi_backlight_dmi := acpi_backlight_dmi st;
     nvidia_wmi_ec_present := nvidia_wmi_ec_present st;
     native_available := native_available st;
     init_done := init_done st;
     video_caps := video_caps st;
     calls := e :: calls st |}.

(** ** The functions of video_detect.c *)

Definition acpi_video_parse_cmdline (m : platform) (st : state) : state :=
  let s := acpi_video_backlight_string m in
  let st := if strcmp "vendor" s =? 0
            then set_acpi_backlight_cmdline acpi_backlight_vendor st else st in
  let st := if strcmp "video" s =? 0
            then set_acpi_backlight_cmdline acpi_backlight_video st else st in
  let st := if strcmp "native" s =? 0
            then set_acpi_backlight_cmdline acpi_backlight_native st else st in
  let st := if strcmp "nvidia_wmi_ec" s =? 0
            then set_acpi_backlight_cmdline acpi_backlight_nvidia_wmi_ec st else st in
  let st := if strcmp "none" s =? 0
            then set_acpi_backlight_cmdline acpi_backlight_none st else st in
  st.

(** [find_video] returns AE_OK on every path; what it computes is the new
    value of the [long] behind [context]. *)
Definition find_video (handle : acpi_handle) (cap : Z) : Z :=
  if acpi_fetch_acpi_dev handle && (acpi_match_device_ids handle =? 0) then
    if negb (acpi_get_pci_dev handle) then cap
    else Z.lor cap (acpi_is_video_device handle)
  else cap.

(** Modelled from the spec: [acpi_walk_namespace] belongs to ACPICA and
    is outside the sources at hand.  It visits every device object, with
    no early exit, and hands each one to the callback. *)
Definition acpi_walk_namespace (m : platform) (cap : Z) : Z :=
  fold_left (fun c handle => find_video handle c) (acpi_namespace m) cap.

Definition nvidia_wmi_ec_supported (hdr : headers) (m : platform) : bool :=
  if CONFIG_X86 hdr then
    match wmi_brightness_source m with
    | None => false
    | Some ret => ret =? WMI_BRIGHTNESS_SOURCE_EC hdr
    end
  else false.

(** Modelled from the spec: [dmi_matches] is part of the DMI core
    (drivers/firmware), outside the sources at hand.  Every predicate of
    the entry has to hold, and a field the platform lacks fails it. *)
Definition dmi_matches (m : platform) (d : dmi_system_id) : bool :=
  forallb
    (fun p =>
       match dmi_ident m (slot p) with
       | None => false
       | Some s =>
           if exact_match p then strcmp s (substr p) =? 0
           else strstr s (substr p)
       end)
    (matches d).

(** Modelled from the spec: [dmi_check_system] is part of the DMI core
    (drivers/firmware), outside the sources at hand.  As in the spec's
    QuirkDatabase.resolve, entries are tried in table order and the
    callback of an entry whose predicates all hold is run, storing what
    it stores.  What ends the walk is the [int] the callback returns,
    which is what the callbacks return it for: the walk goes on while
    callbacks return 0 and ends with the first one that returns
    non-zero.  (The spec ends the walk at the first rule that commits;
    the four callbacks of this file return 0 on every path, so on this
    table the walk always reaches the end.) *)
Fixpoint dmi_check_system (hdr : headers) (m : platform)
    (list : list dmi_system_id) (st : state) : state :=
  match list with
  | [] => st
  | d :: rest =>
      if dmi_matches m d then
        let r := callback d hdr m in
        let st := record_call (ev_dmi_callback d) st in
        let st := match cb_store r with
                  | Some t => set_acpi_backlight_dmi t st
                  | None => st
                  end in
        if negb (cb_ret r =? 0) then st
        else dmi_check_system hdr m rest st
      else dmi_check_system hdr m rest st
  end.

Definition google_cros_ec_present (m : platform) : bool :=
  acpi_dev_found m "GOOG0004" || acpi_dev_found m "GOOG000C".

Definition prefer_native_over_acpi_video (m : platform) : bool :=
  acpi_osi_is_win8 m || google_cros_ec_present m.

(** The block guarded by [if (!init_done)]. *)
Definition init_block (hdr : headers) (m : platform) (st : state) : state :=
  let st := acpi_video_parse_cmdline m
              (record_call ev_acpi_video_parse_cmdline st) in
  let st := dmi_check_system hdr m video_detect_dmi_table
              (record_call ev_dmi_check_system st) in
  let st := record_call ev_acpi_walk_namespace st in
  let st := set_video_caps (acpi_walk_namespace m (video_caps st)) st in
  let st := record_call ev_nvidia_wmi_ec_supported st in
  let st := set_nvidia_wmi_ec_present (nvidia_wmi_ec_supported hdr m) st in
  set_init_done true st.

(** What a call of the query leaves behind: the variables, the [bool]
    behind [auto_detect] ([None] for a NULL pointer) and the value
    returned. *)
Record outcome : Type := {
  out_state : state;
  out_auto_detect : option bool;
  out_type : acpi_backlight_type
}.

(** [auto_detect] is [None] for a NULL pointer and [Some b] for a pointer
    to a [bool] that holds [b] when the call is made. *)
Definition __acpi_video_get_backlight_type (hdr : headers) (m : platform)
    (native : bool) (auto_detect : option bool) (st : state) : outcome :=
  let st := if negb (init_done st) then init_block hdr m st else st in
  let st := if native then set_native_available true st else st in
  let auto_detect := option_map (fun _ => false) auto_detect in
  if negb (backlight_eqb (acpi_backlight_cmdline st) acpi_backlight_undef) then
    {| out_state := st; out_auto_detect := auto_detect;
       out_type := acpi_backlight_cmdline st |}
  else if negb (backlight_eqb (acpi_backlight_dmi st) acpi_backlight_undef) then
    {| out_state := st; out_auto_detect := auto_detect;
       out_type := acpi_backlight_dmi st |}
  else if nvidia_wmi_ec_present st then
    {| out_state := st; out_auto_detect := auto_detect;
       out_type := acpi_backlight_nvidia_wmi_ec |}
  else
    let auto_detect := option_map (fun _ => true) auto_detect in
    if negb (Z.land (video_caps st) (ACPI_VIDEO_BACKLIGHT hdr) =? 0)
       && negb (native_available st && prefer_native_over_acpi_video m) then
      {| out_state := st; out_auto_detect := auto_detect;
         out_type := acpi_backlight_video |}
    else if native_available st then
      {| out_state := st; out_auto_detect := auto_detect;
         out_type := acpi_backlight_native |}
    else if acpi_osi_is_win8 m then
      {| out_state := st; out_auto_detect := auto_detect;
         out_type := acpi_backlight_none |}
    else
      {| out_state := st; out_auto_detect := auto_detect;
         out_type := acpi_backlight_vendor |}.

(** Modelled from the spec: the argument-free
    [acpi_video_get_backlight_type] is an inline wrapper from
    <acpi/video.h>, outside the sources at hand.  It is the plain query:
    no native hint (that is what the acpi_video_backlight_use_native
    helper named in the file's header comment is for) and no
    [auto_detect] pointer. *)
Definition acpi_video_get_backlight_type (hdr : headers) (m : platform)
    (st : state) : outcome :=
  __acpi_video_get_backlight_type hdr m false None st.

(** [acpi_video_unregister_backlight] is defined by the acpi-video driver;
    here it is the request itself that matters. *)
Definition acpi_video_unregister_backlight (st : state) : state :=
  record_call ev_acpi_video_unregister_backlight st.

Definition acpi_video_set_dmi_backlight_type (hdr : headers) (m : platform)
    (type : acpi_backlight_type) (st : state) : state :=
  let st := set_acpi_backlight_dmi type st in
  let r := acpi_video_get_backlight_type hdr m st in
  if negb (backlight_eqb (out_type r) acpi_backlight_video)
  then acpi_video_unregister_backlight (out_state r)
  else out_state r.

(** ** Sequences of calls *)

(** The two entry points the file exports, as requests that the drivers
    make one after the other.  Each request comes with the platform as it
    is when the request is served. *)
Inductive request : Type :=
  | get_backlight_type (native : bool) (auto_detect : option bool)
  | set_dmi_backlight_type (type : acpi_backlight_type).

Definition serve (hdr : headers) (st : state) (c : platform * request) : state :=
  match snd c with
  | get_backlight_type native auto_detect =>
      out_state (__acpi_video_get_backlight_type hdr (fst c) native auto_detect st)
  | set_dmi_backlight_type type =>
      acpi_video_set_dmi_backlight_type hdr (fst c) type st
  end.

Definition run (hdr : headers) (cs : list (platform * request)) (st : state) : state :=
  fold_left (serve hdr) cs st.

Definition asserts_native (c : platform * request) : bool :=
  match snd c with
  | get_backlight_type native _ => native
  | set_dmi_backlight_type _ => false
  end.

Definition is_query (c : platform * request) : bool :=
  match snd c with
  | get_backlight_type _ _ => true
  | set_dmi_backlight_type _ => false
  end.

(** How often a kind of call was made. *)
Definition same_kind (e1 e2 : event) : bool :=
  match e1, e2 with
  | ev_acpi_video_parse_cmdline, ev_acpi_video_parse_cmdline
  | ev_dmi_check_system, ev_dmi_check_system
  | ev_dmi_callback _, ev_dmi_callback _
  | ev_acpi_walk_namespace, ev_acpi_walk_namespace
  | ev_nvidia_wmi_ec_supported, ev_nvidia_wmi_ec_supported
  | ev_acpi_video_unregister_backlight, ev_acpi_video_unregister_backlight => true
  | _, _ => false
  end.

Definition is_callback (e : event) : bool :=
  match e with
  | ev_dmi_callback _ => true
  | _ => false
  end.

Definition times (e : event) (st : state) : nat :=
  List.length (filter (same_kind e) (calls st)).

(** ** The policy as the specification words it *)

(** The spec's ResolutionState. *)
Record ResolutionState : Set := {
  cmdlineOverride : acpi_backlight_type;
  dmiOverride : acpi_backlight_type;
  videoCapable : bool;
  vendorEcPresent : bool;
  nativeAvailable : bool;
  initialized : bool
}.

(** How the variables of the C file are read as a ResolutionState: the
    capability flag is the ACPI_VIDEO_BACKLIGHT bit of [video_caps]. *)
Definition resolution_state (hdr : headers) (st : state) : ResolutionState :=
  {| cmdlineOverride := acpi_backlight_cmdline st;
     dmiOverride := acpi_backlight_dmi st;
     videoCapable := negb (Z.land (video_caps st) (ACPI_VIDEO_BACKLIGHT hdr) =? 0);
     vendorEcPresent := nvidia_wmi_ec_present st;
     nativeAvailable := native_available st;
     initialized := init_done st |}.

(** The seven steps of the spec's precedence policy. *)
Inductive policy_step : Set :=
  | step1_cmdline
  | step2_dmi
  | step3_vendor_ec
  | step4_video
  | step5_native
  | step6_modern_none
  | step7_legacy_vendor.

(** Written from the spec: preferNativeOverVideo() is "modern generation,
    or a fixed-function controller chassis". *)
Definition preferNativeOverVideo (modern fixedController : bool) : bool :=
  modern || fixedController.

(** Written from the spec: the step of the precedence policy that decides
    for a given ResolutionState. *)
Definition deciding_step (rs : ResolutionState) (modern fixedController : bool)
  : policy_step :=
  match cmdlineOverride rs with
  | acpi_backlight_undef =>
      match dmiOverride rs with
      | acpi_backlight_undef =>
          if vendorEcPresent rs then step3_vendor_ec
          else if videoCapable rs
                  && negb (nativeAvailable rs
                           && preferNativeOverVideo modern fixedController)
               then step4_video
          else if nativeAvailable rs then step5_native
          else if modern then step6_modern_none
          else step7_legacy_vendor
      | _ => step2_dmi
      end
  | _ => step1_cmdline
  end.

(** Written from the spec: the value each step returns. *)
Definition precedence_policy (rs : ResolutionState) (modern fixedController : bool)
  : acpi_backlight_type :=
  match deciding_step rs modern fixedController with
  | step1_cmdline => cmdlineOverride rs
  | step2_dmi => dmiOverride rs
  | step3_vendor_ec => acpi_backlight_nvidia_wmi_ec
  | step4_video => acpi_backlight_video
  | step5_native => acpi_backlight_native
  | step6_modern_none => acpi_backlight_none
  | step7_legacy_vendor => acpi_backlight_vendor
  end.

(** The step that decides a call of the query on platform [m], read off
    the variables the call leaves behind. *)
Definition step_of (hdr : headers) (m : platform) (r : outcome) : policy_step :=
  deciding_step (resolution_state hdr (out_state r))
    (acpi_osi_is_win8 m) (google_cros_ec_present m).

(** ** Sample platforms *)

(** The values the constants have in the kernel headers. *)
Definition linux_x86 : headers :=
  {| CONFIG_X86 := true;
     ACPI_VIDEO_BACKLIGHT := 0x0008;
     WMI_BRIGHTNESS_SOURCE_EC := 2;
     PCI_VENDOR_ID_TRIDENT := 0x1023 |}.

(** A machine that answers nothing: no boot parameter, no DMI strings, an
    empty namespace, no WMI method, no PCI device, firmware older than
    Windows 8. *)
Definition bare_pc : platform :=
  {| acpi_video_backlight_string := "";
     dmi_ident := fun _ => None;
     acpi_namespace := [];
     wmi_brightness_source := None;
     pci_get_device := fun _ _ => false;
     acpi_osi_is_win8 := false;
     acpi_dev_found := fun _ => false |}.

(** A graphics device under the ACPI video bus that has a backlight. *)
Definition video_handle : acpi_handle :=
  {| acpi_fetch_acpi_dev := true;
     acpi_match_device_ids := 0;
     acpi_get_pci_dev := true;
     acpi_is_video_device := 0x0008 |}.

(** A Windows 8 era laptop with ACPI video backlight methods. *)
Definition win8_laptop : platform :=
  {| acpi_video_backlight_string := "";
     dmi_ident := fun _ => None;
     acpi_namespace := [video_handle];
     wmi_brightness_source := None;
     pci_get_device := fun _ _ => false;
     acpi_osi_is_win8 := true;
     acpi_dev_found := fun _ => false |}.

(** Windows 8 firmware without any ACPI video device. *)
Definition win8_no_video : platform :=
  {| acpi_video_backlight_string := "";
     dmi_ident := fun _ => None;
     acpi_namespace := [];
     wmi_brightness_source := None;
     pci_get_device := fun _ _ => false;
     acpi_osi_is_win8 := true;
     acpi_dev_found := fun _ => false |}.

Definition with_cmdline (s : string) (m : platform) : platform :=
  {| acpi_video_backlight_string := s;
     dmi_ident := dmi_ident m;
     acpi_namespace := acpi_namespace m;
     wmi_brightness_source := wmi_brightness_source m;
     pci_get_device := pci_get_device m;
     acpi_osi_is_win8 := acpi_osi_is_win8 m;
     acpi_dev_found := acpi_dev_found m |}.

Definition with_dmi (id : dmi_field -> option string) (m : platform) : platform :=
  {| acpi_video_backlight_string := acpi_video_backlight_string m;
     dmi_ident := id;
     acpi_namespace := acpi_namespace m;
     wmi_brightness_source := wmi_brightness_source m;
     pci_get_device := pci_get_device m;
     acpi_osi_is_win8 := acpi_osi_is_win8 m;
     acpi_dev_found := acpi_dev_found m |}.




(** A Samsung X360, the first entry of the table (vendor). *)
Definition samsung_x360 (f : dmi_field) : option string :=
  match f with
  | DMI_SYS_VENDOR => Some "SAMSUNG ELECTRONICS CO., LTD."
  | DMI_PRODUCT_NAME => Some "X360"
  | DMI_BOARD_NAME => Some "X360"
  | _ => None
  end.



(** The four calls of the initialisation block. *)
Definition init_events : list event :=
  [ev_acpi_video_parse_cmdline; ev_dmi_check_system;
   ev_acpi_walk_namespace; ev_nvidia_wmi_ec_supported].

(** ** Auxiliary notions for the further properties *)

(** The three tests a handle has to pass in [find_video] before its
    capabilities are taken in. *)
Definition is_pci_video (handle : acpi_handle) : bool :=
  acpi_fetch_acpi_dev handle
  && (acpi_match_device_ids handle =? 0)
  && acpi_get_pci_dev handle.

(** The type of the last setter call of a sequence, [d] if there is
    none. *)
Definition last_dmi_set (cs : list (platform * request))
    (d : acpi_backlight_type) : acpi_backlight_type :=
  fold_left
    (fun acc c =>
       match snd c with
       | set_dmi_backlight_type type => type
       | get_backlight_type _ _ => acc
       end)
    cs d.

(** The number of setter calls of a sequence. *)
Definition setter_calls (cs : list (platform * request)) : nat :=
  List.length (filter (fun c => negb (is_query c)) cs).

(** A graphics device that can switch outputs and has no backlight. *)
Definition switching_handle : acpi_handle :=
  {| acpi_fetch_acpi_dev := true;
     acpi_match_device_ids := 0;
     acpi_get_pci_dev := true;
     acpi_is_video_device := 0x0001 |}.

(** A video bus object with no PCI device behind it. *)
Definition orphan_handle : acpi_handle :=
  {| acpi_fetch_acpi_dev := true;
     acpi_match_device_ids := 0;
     acpi_get_pci_dev := false;
     acpi_is_video_device := 0x0008 |}.

Definition with_namespace (handles : list acpi_handle) (m : platform) : platform :=
  {| acpi_video_backlight_string := acpi_video_backlight_string m;
     dmi_ident := dmi_ident m;
     acpi_namespace := handles;
     wmi_brightness_source := wmi_brightness_source m;
     pci_get_device := pci_get_device m;
     acpi_osi_is_win8 := acpi_osi_is_win8 m;
     acpi_dev_found := acpi_dev_found m |}.

(** A build for another architecture. *)
Definition linux_other_arch : headers :=
  {| CONFIG_X86 := false;
     ACPI_VIDEO_BACKLIGHT := 0x0008;
     WMI_BRIGHTNESS_SOURCE_EC := 2;
     PCI_VENDOR_ID_TRIDENT := 0x1023 |}.

(** A laptop whose firmware says that the EC drives the backlight. *)
Definition nvidia_ec_laptop : platform :=
  {| acpi_video_backlight_string := "";
     dmi_ident := fun _ => None;
     acpi_namespace := [video_handle];
     wmi_brightness_source := Some 2;
     pci_get_device := fun _ _ => false;
     acpi_osi_is_win8 := true;
     acpi_dev_found := fun _ => false |}.

(** A pre-Windows 8 laptop with ACPI video backlight methods. *)
Definition win7_laptop : platform :=
  {| acpi_video_backlight_string := "";
     dmi_ident := fun _ => None;
     acpi_namespace := [video_handle];
     wmi_brightness_source := None;
     pci_get_device := fun _ _ => false;
     acpi_osi_is_win8 := false;
     acpi_dev_found := fun _ => false |}.

(** What every callback of the table does: it returns 0 and stores
    vendor, video, native or nothing. *)
Definition stores_vendor_video_or_native
    (cb : headers -> platform -> cb_result) : Prop :=
  forall hdr m,
    cb_ret (cb hdr m) = 0 /\
    In (cb_store (cb hdr m))
       [None; Some acpi_backlight_vendor; Some acpi_backlight_video;
        Some acpi_backlight_native].

(** * Properties *)

(** ** Comparing backlight types and C strings *)

Lemma backlight_eqb_eq (a b : acpi_backlight_type) :
  backlight_eqb a b = true <-> a = b.
Proof.
  split.
  - destruct a, b; simpl; intro H; try reflexivity; discriminate H.
  - intros ->. destruct b; reflexivity.
Qed.

Lemma backlight_eqb_undef (a : acpi_backlight_type) :
  backlight_eqb a acpi_backlight_undef =
  match a with acpi_backlight_undef => true | _ => false end.
Proof. destruct a; reflexivity. Qed.

Lemma byte_inj (c d : ascii) :
  Z.of_N (N_of_ascii c) = Z.of_N (N_of_ascii d) -> c = d.
Proof.
  intro H. apply N2Z.inj in H.
  rewrite <- (ascii_N_embedding c), <- (ascii_N_embedding d).
  now rewrite H.
Qed.

Lemma strcmp_zero (a : string) :
  forall b, strcmp a b = 0 <-> cstr a = cstr b.
Proof.
  induction a as [|c a IH]; intros [|d b]; cbn [strcmp peek advance cstr].
  - split; reflexivity.
  - rewrite (Z.eqb_sym 0).
    destruct (Z.eqb_spec (Z.of_N (N_of_ascii d)) 0) as [E|E];
      cbn [negb].
    + split; reflexivity.
    + destruct (0 <? Z.of_N (N_of_ascii d)); split; discriminate.
  - destruct (Z.eqb_spec (Z.of_N (N_of_ascii c)) 0) as [E|E]; cbn [negb].
    + split; reflexivity.
    + destruct (Z.of_N (N_of_ascii c) <? 0); split; discriminate.
  - destruct (Z.eqb_spec (Z.of_N (N_of_ascii c)) (Z.of_N (N_of_ascii d)))
      as [E|E]; cbn [negb].
    + apply byte_inj in E. subst d.
      destruct (Z.eqb_spec (Z.of_N (N_of_ascii c)) 0) as [E0|E0].
      * split; reflexivity.
      * rewrite IH. split; intro H; [now rewrite H | now inversion H].
    + split.
      * destruct (Z.of_N (N_of_ascii c) <? Z.of_N (N_of_ascii d)); discriminate.
      * intro H.
        destruct (Z.eqb_spec (Z.of_N (N_of_ascii c)) 0) as [Ec|Ec];
          destruct (Z.eqb_spec (Z.of_N (N_of_ascii d)) 0) as [Ed|Ed];
          try discriminate H.
        -- congruence.
        -- inversion H; subst; congruence.
Qed.

Lemma strcmp_eqb (a b : string) :
  (strcmp a b =? 0) = (cstr a =? cstr b)%string.
Proof.
  destruct (String.eqb_spec (cstr a) (cstr b)) as [E|E].
  - apply Z.eqb_eq. now apply strcmp_zero.
  - apply Z.eqb_neq. intro H. apply E. now apply strcmp_zero.
Qed.

(** ** The command line *)

Lemma cstr_literals :
  cstr "vendor" = "vendor" /\ cstr "video" = "video" /\
  cstr "native" = "native" /\ cstr "nvidia_wmi_ec" = "nvidia_wmi_ec" /\
  cstr "none" = "none".
Proof. repeat split; reflexivity. Qed.

(** C9: the parser maps exactly the five case-sensitive tokens "vendor",
    "video", "native", "nvidia_wmi_ec" and "none" to their backlight types;
    for every other content of the parameter buffer, the empty string
    included, it changes nothing, so the command-line override stays at
    its initial undef, and no error is raised (the function only ever
    returns a state). *)
Theorem acpi_video_parse_cmdline_tokens (m : platform) (st : state) :
  let tok := cstr (acpi_video_backlight_string m) in
  let st' := acpi_video_parse_cmdline m st in
  (tok = "vendor" -> acpi_backlight_cmdline st' = acpi_backlight_vendor) /\
  (tok = "video" -> acpi_backlight_cmdline st' = acpi_backlight_video) /\
  (tok = "native" -> acpi_backlight_cmdline st' = acpi_backlight_native) /\
  (tok = "nvidia_wmi_ec" ->
   acpi_backlight_cmdline st' = acpi_backlight_nvidia_wmi_ec) /\
  (tok = "none" -> acpi_backlight_cmdline st' = acpi_backlight_none) /\
  (tok <> "vendor" -> tok <> "video" -> tok <> "native" ->
   tok <> "nvidia_wmi_ec" -> tok <> "none" -> st' = st) /\
  (acpi_backlight_cmdline st = acpi_backlight_undef ->
   acpi_backlight_cmdline st' = acpi_backlight_undef ->
   ~ In tok ["vendor"; "video"; "native"; "nvidia_wmi_ec"; "none"]).
Proof.
  destruct cstr_literals as (Lvendor & Lvideo & Lnative & Lnvidia & Lnone).
  cbv zeta. unfold acpi_video_parse_cmdline.
  rewrite !strcmp_eqb, Lvendor, Lvideo, Lnative, Lnvidia, Lnone.
  set (tok := cstr (acpi_video_backlight_string m)).
  destruct (String.eqb_spec "vendor" tok) as [E1|E1];
    destruct (String.eqb_spec "video" tok) as [E2|E2];
    destruct (String.eqb_spec "native" tok) as [E3|E3];
    destruct (String.eqb_spec "nvidia_wmi_ec" tok) as [E4|E4];
    destruct (String.eqb_spec "none" tok) as [E5|E5];
    try (rewrite <- E1 in *); try (rewrite <- E2 in *);
    try (rewrite <- E3 in *); try (rewrite <- E4 in *);
    try (rewrite <- E5 in *); try discriminate;
    repeat split; intros; try reflexivity; try congruence;
    try (simpl in *; intuition congruence).
Qed.

(** The override for five sample buffers: a recognised token, the empty
    buffer, a token in the wrong case, a token with a trailing blank, and
    a recognised token followed by a terminator and left-over bytes. *)
Lemma acpi_video_parse_cmdline_samples :
  acpi_backlight_cmdline
    (acpi_video_parse_cmdline (with_cmdline "nvidia_wmi_ec" bare_pc) boot)
  = acpi_backlight_nvidia_wmi_ec /\
  acpi_video_parse_cmdline (with_cmdline "" bare_pc) boot = boot /\
  acpi_video_parse_cmdline (with_cmdline "Vendor" bare_pc) boot = boot /\
  acpi_video_parse_cmdline (with_cmdline "video " bare_pc) boot = boot /\
  acpi_backlight_cmdline
    (acpi_video_parse_cmdline
       (with_cmdline (String.append "none" (String zero "xyz")) bare_pc) boot)
  = acpi_backlight_none.
Proof. repeat split; reflexivity. Qed.

Lemma acpi_video_parse_cmdline_tokens_witness :
  acpi_backlight_cmdline
    (acpi_video_parse_cmdline (with_cmdline "native" bare_pc) boot)
  = acpi_backlight_native.
Proof.
  exact (proj1 (proj2 (proj2
           (acpi_video_parse_cmdline_tokens (with_cmdline "native" bare_pc) boot)))
           eq_refl).
Defined.

(** ** What each function leaves untouched *)

Lemma acpi_video_parse_cmdline_frame (m : platform) (st : state) :
  let st' := acpi_video_parse_cmdline m st in
  acpi_backlight_dmi st' = acpi_backlight_dmi st /\
  nvidia_wmi_ec_present st' = nvidia_wmi_ec_present st /\
  native_available st' = native_available st /\
  init_done st' = init_done st /\
  video_caps st' = video_caps st /\
  calls st' = calls st.
Proof.
  cbv zeta. unfold acpi_video_parse_cmdline.
  repeat match goal with
         | |- context [if ?c then _ else _] => destruct c
         end; repeat split; reflexivity.
Qed.

Lemma same_kind_callback (e : event) (d : dmi_system_id) :
  is_callback e = false -> same_kind e (ev_dmi_callback d) = false.
Proof. destruct e; intro H; try reflexivity; discriminate H. Qed.

Lemma times_record_call (e e' : event) (st : state) :
  times e (record_call e' st) =
  if same_kind e e' then S (times e st) else times e st.
Proof. unfold times. cbn. destruct (same_kind e e'); reflexivity. Qed.

Lemma dmi_check_system_frame (hdr : headers) (m : platform)
    (table : list dmi_system_id) :
  forall st,
    let st' := dmi_check_system hdr m table st in
    acpi_backlight_cmdline st' = acpi_backlight_cmdline st /\
    nvidia_wmi_ec_present st' = nvidia_wmi_ec_present st /\
    native_available st' = native_available st /\
    init_done st' = init_done st /\
    video_caps st' = video_caps st /\
    (forall e, is_callback e = false -> times e st' = times e st).
Proof.
  induction table as [|d rest IH]; intro st; cbn [dmi_check_system].
  - repeat split; reflexivity.
  - destruct (dmi_matches m d); [|exact (IH st)].
    cbv zeta.
    set (st1 := match cb_store (callback d hdr m) with
                | Some t =>
                    set_acpi_backlight_dmi t (record_call (ev_dmi_callback d) st)
                | None => record_call (ev_dmi_callback d) st
                end).
    assert (H1 : acpi_backlight_cmdline st1 = acpi_backlight_cmdline st /\
                 nvidia_wmi_ec_present st1 = nvidia_wmi_ec_present st /\
                 native_available st1 = native_available st /\
                 init_done st1 = init_done st /\
                 video_caps st1 = video_caps st /\
                 (forall e, is_callback e = false -> times e st1 = times e st)).
    { unfold st1. destruct (cb_store (callback d hdr m));
        repeat split; intros e He; unfold times; cbn;
        now rewrite (same_kind_callback e d He). }
    clearbody st1. destruct H1 as (A1 & A2 & A3 & A4 & A5 & A6).
    destruct (negb (cb_ret (callback d hdr m) =? 0)).
    + repeat split; assumption.
    + destruct (IH st1) as (H1 & H2 & H3 & H4 & H5 & H6).
      repeat split; try congruence.
      intros e He. now rewrite (H6 e He), (A6 e He).
Qed.

Lemma times_parse_cmdline (e : event) (m : platform) (st : state) :
  times e (acpi_video_parse_cmdline m st) = times e st.
Proof.
  unfold times.
  now rewrite (proj2 (proj2 (proj2 (proj2 (proj2
                (acpi_video_parse_cmdline_frame m st)))))).
Qed.

Lemma times_dmi_check_system (e : event) (hdr : headers) (m : platform)
    (table : list dmi_system_id) (st : state) :
  is_callback e = false ->
  times e (dmi_check_system hdr m table st) = times e st.
Proof.
  intro He.
  exact (proj2 (proj2 (proj2 (proj2 (proj2
           (dmi_check_system_frame hdr m table st))))) e He).
Qed.

Ltac count_calls :=
  repeat first
    [ rewrite times_record_call
    | rewrite times_parse_cmdline
    | rewrite times_dmi_check_system by reflexivity
    | progress change (times ?e (set_acpi_backlight_cmdline ?v ?s)) with (times e s)
    | progress change (times ?e (set_acpi_backlight_dmi ?v ?s)) with (times e s)
    | progress change (times ?e (set_nvidia_wmi_ec_present ?v ?s)) with (times e s)
    | progress change (times ?e (set_native_available ?v ?s)) with (times e s)
    | progress change (times ?e (set_init_done ?v ?s)) with (times e s)
    | progress change (times ?e (set_video_caps ?v ?s)) with (times e s) ].

Lemma init_block_frame (hdr : headers) (m : platform) (st : state) :
  let st' := init_block hdr m st in
  init_done st' = true /\
  native_available st' = native_available st /\
  (forall e, In e init_events -> times e st' = S (times e st)) /\
  times ev_acpi_video_unregister_backlight st'
  = times ev_acpi_video_unregister_backlight st.
Proof.
  cbv zeta. unfold init_block.
  generalize video_detect_dmi_table. intro table.
  split; [reflexivity|]. split; [|split].
  - cbn [native_available set_init_done set_nvidia_wmi_ec_present
         set_video_caps record_call].
    rewrite (proj1 (proj2 (proj2 (dmi_check_system_frame hdr m _ _)))).
    cbn [native_available record_call].
    now rewrite (proj1 (proj2 (proj2 (acpi_video_parse_cmdline_frame m _)))).
  - intros e [<-|[<-|[<-|[<-|[]]]]]; cbv zeta; count_calls; reflexivity.
  - cbv zeta; count_calls; reflexivity.
Qed.

(** ** The query *)

(** The variables after a call: the block has run if it had not, and the
    native flag is raised if the caller asked for it. *)
Lemma out_state_query (hdr : headers) (m : platform) (native : bool)
    (auto_detect : option bool) (st : state) :
  out_state (__acpi_video_get_backlight_type hdr m native auto_detect st) =
  let st1 := if negb (init_done st) then init_block hdr m st else st in
  if native then set_native_available true st1 else st1.
Proof.
  unfold __acpi_video_get_backlight_type. cbv zeta.
  repeat match goal with
         | |- context [if ?c then {| out_state := _ |} else _] => destruct c
         end; reflexivity.
Qed.

(** The value returned and the flag written, in terms of the step of the
    policy that decides on the variables the call leaves behind. *)
Lemma out_type_query (hdr : headers) (m : platform) (native : bool)
    (auto_detect : option bool) (st : state) :
  let r := __acpi_video_get_backlight_type hdr m native auto_detect st in
  out_type r =
  precedence_policy (resolution_state hdr (out_state r))
    (acpi_osi_is_win8 m) (google_cros_ec_present m) /\
  out_auto_detect r =
  option_map
    (fun _ => match step_of hdr m r with
              | step1_cmdline | step2_dmi | step3_vendor_ec => false
              | _ => true
              end)
    auto_detect.
Proof.
  cbv zeta. unfold step_of, precedence_policy, deciding_step.
  rewrite out_state_query. cbv zeta.
  unfold __acpi_video_get_backlight_type. cbv zeta.
  set (st1 := if negb (init_done st) then init_block hdr m st else st).
  set (st2 := if native then set_native_available true st1 else st1).
  clearbody st2. clear st1.
  unfold resolution_state, preferNativeOverVideo, prefer_native_over_acpi_video.
  cbn [cmdlineOverride dmiOverride videoCapable vendorEcPresent nativeAvailable].
  rewrite !backlight_eqb_undef.
  destruct (acpi_backlight_cmdline st2); cbn;
    try (destruct auto_detect; split; reflexivity).
  destruct (acpi_backlight_dmi st2); cbn;
    try (destruct auto_detect; split; reflexivity).
  destruct (nvidia_wmi_ec_present st2); cbn;
    try (destruct auto_detect; split; reflexivity).
  destruct (Z.land (video_caps st2) (ACPI_VIDEO_BACKLIGHT hdr) =? 0),
    (native_available st2), (acpi_osi_is_win8 m), (google_cros_ec_present m);
    cbn; destruct auto_detect; split; reflexivity.
Qed.

Lemma out_state_query_initialised (hdr : headers) (m : platform)
    (native : bool) (auto_detect : option bool) (st : state) :
  init_done st = true ->
  out_state (__acpi_video_get_backlight_type hdr m native auto_detect st) =
  if native then set_native_available true st else st.
Proof. intro H. rewrite out_state_query, H. reflexivity. Qed.

Lemma init_done_query (hdr : headers) (m : platform) (native : bool)
    (auto_detect : option bool) (st : state) :
  init_done
    (out_state (__acpi_video_get_backlight_type hdr m native auto_detect st))
  = true.
Proof.
  rewrite out_state_query. cbv zeta.
  assert (H : init_done (if negb (init_done st)
                         then init_block hdr m st else st) = true).
  { destruct (init_done st) eqn:E; cbn [negb]; [exact E|].
    exact (proj1 (init_block_frame hdr m st)). }
  destruct native; exact H.
Qed.

(** C1: once the initialisation block has run, the query returns what the
    spec's seven-step precedence policy gives on the ResolutionState made
    of the cached variables and of the native flag after the caller's hint
    has been taken in: the command line, else the DMI override, else the
    vendor EC, else video when capable and not (native available and
    native preferred), else native when available, else none on Windows 8
    firmware, else vendor.  In particular, with no override and no vendor
    EC, a video-capable machine with native available and preferred gets
    native, not video. *)
Theorem get_backlight_type_follows_precedence (hdr : headers) (m : platform)
    (native : bool) (auto_detect : option bool) (st : state) :
  init_done st = true ->
  let r := __acpi_video_get_backlight_type hdr m native auto_detect st in
  let rs :=
    {| cmdlineOverride := acpi_backlight_cmdline st;
       dmiOverride := acpi_backlight_dmi st;
       videoCapable :=
         negb (Z.land (video_caps st) (ACPI_VIDEO_BACKLIGHT hdr) =? 0);
       vendorEcPresent := nvidia_wmi_ec_present st;
       nativeAvailable := native_available st || native;
       initialized := true |} in
  let modern := acpi_osi_is_win8 m in
  let fixedController := google_cros_ec_present m in
  resolution_state hdr (out_state r) = rs /\
  out_type r = precedence_policy rs modern fixedController /\
  (cmdlineOverride rs = acpi_backlight_undef ->
   dmiOverride rs = acpi_backlight_undef ->
   vendorEcPresent rs = false ->
   videoCapable rs = true ->
   nativeAvailable rs = true ->
   preferNativeOverVideo modern fixedController = true ->
   out_type r = acpi_backlight_native).
Proof.
  intro Hinit. cbv zeta.
  assert (Hrs : resolution_state hdr
                  (out_state (__acpi_video_get_backlight_type hdr m native
                                auto_detect st)) =
                {| cmdlineOverride := acpi_backlight_cmdline st;
                   dmiOverride := acpi_backlight_dmi st;
                   videoCapable :=
                     negb (Z.land (video_caps st) (ACPI_VIDEO_BACKLIGHT hdr) =? 0);
                   vendorEcPresent := nvidia_wmi_ec_present st;
                   nativeAvailable := native_available st || native;
                   initialized := true |}).
  { rewrite (out_state_query_initialised hdr m native auto_detect st Hinit).
    unfold resolution_state.
    destruct native; cbn; rewrite ?Hinit, ?orb_true_r, ?orb_false_r;
      reflexivity. }
  assert (Hty := proj1 (out_type_query hdr m native auto_detect st)).
  cbv zeta in Hty. rewrite Hrs in Hty.
  split; [exact Hrs|]. split; [exact Hty|].
  cbn [cmdlineOverride dmiOverride videoCapable vendorEcPresent nativeAvailable].
  intros Hc Hd Hv Hcap Hnat Hpref.
  rewrite Hty. unfold precedence_policy, deciding_step.
  cbn [cmdlineOverride dmiOverride videoCapable vendorEcPresent nativeAvailable].
  rewrite Hc, Hd, Hv, Hcap, Hnat, Hpref. reflexivity.
Qed.

(** Scenario E of the spec on a Windows 8 laptop with ACPI video, after
    the graphics driver has announced its native backlight. *)
Lemma get_backlight_type_follows_precedence_witness :
  let st := out_state (__acpi_video_get_backlight_type linux_x86 win8_laptop
                         false None boot) in
  init_done st = true /\
  out_type (__acpi_video_get_backlight_type linux_x86 win8_laptop false None st)
  = acpi_backlight_video /\
  out_type (__acpi_video_get_backlight_type linux_x86 win8_laptop true None st)
  = acpi_backlight_native.
Proof.
  split; [reflexivity|]. split; [reflexivity|].
  exact (proj2 (proj2
           (get_backlight_type_follows_precedence linux_x86 win8_laptop true None
              (out_state (__acpi_video_get_backlight_type linux_x86 win8_laptop
                            false None boot))
              eq_refl))
           eq_refl eq_refl eq_refl eq_refl eq_refl eq_refl).
Defined.

(** C2: whatever the variables hold and whatever the arguments are, the
    query returns a value (the function is total) and the value is one of
    vendor, video, native, nvidia_wmi_ec and none, never undef. *)
Theorem get_backlight_type_never_undef (hdr : headers) (m : platform)
    (native : bool) (auto_detect : option bool) (st : state) :
  let r := __acpi_video_get_backlight_type hdr m native auto_detect st in
  In (out_type r)
     [acpi_backlight_vendor; acpi_backlight_video; acpi_backlight_native;
      acpi_backlight_nvidia_wmi_ec; acpi_backlight_none] /\
  out_type r <> acpi_backlight_undef.
Proof.
  cbv zeta.
  rewrite (proj1 (out_type_query hdr m native auto_detect st)).
  set (rs := resolution_state hdr _). clearbody rs.
  unfold precedence_policy, deciding_step.
  destruct (cmdlineOverride rs);
    try (cbn; split; [tauto | discriminate]).
  destruct (dmiOverride rs);
    try (cbn; split; [tauto | discriminate]).
  destruct (vendorEcPresent rs), (videoCapable rs), (nativeAvailable rs),
    (acpi_osi_is_win8 m), (google_cros_ec_present m);
    cbn; split; try tauto; discriminate.
Qed.

(** ** The auto_detect flag *)

(** C4, as the claim words it, fails: on a machine that reaches the legacy
    vendor fallback (step 7), and on one that reaches the Windows 8 none
    fallback (step 6), the flag behind [auto_detect] is left at true. *)
Lemma auto_detect_true_on_fallbacks :
  let r7 := __acpi_video_get_backlight_type linux_x86 bare_pc
              false (Some false) boot in
  let r6 := __acpi_video_get_backlight_type linux_x86 win8_no_video
              false (Some false) boot in
  (step_of linux_x86 bare_pc r7 = step7_legacy_vendor /\
   out_type r7 = acpi_backlight_vendor /\
   out_auto_detect r7 = Some true) /\
  (step_of linux_x86 win8_no_video r6 = step6_modern_none /\
   out_type r6 = acpi_backlight_none /\
   out_auto_detect r6 = Some true).
Proof. repeat split; reflexivity. Qed.

(** C4, amended: when the caller passes a pointer, the flag behind it is
    true exactly when the result comes from steps 4 to 7 of the policy
    (video, native, the Windows 8 none fallback, the legacy vendor
    fallback), that is when neither the command line, nor the DMI
    override, nor the vendor EC decided; for steps 1 to 3 it is false.
    With a NULL pointer nothing is written. *)
Theorem auto_detect_reports_no_override (hdr : headers) (m : platform)
    (native : bool) (b : bool) (st : state) :
  let r := __acpi_video_get_backlight_type hdr m native (Some b) st in
  out_auto_detect r =
  Some match step_of hdr m r with
       | step1_cmdline | step2_dmi | step3_vendor_ec => false
       | step4_video | step5_native
       | step6_modern_none | step7_legacy_vendor => true
       end /\
  out_auto_detect (__acpi_video_get_backlight_type hdr m native None st) = None.
Proof.
  cbv zeta. split.
  - rewrite (proj2 (out_type_query hdr m native (Some b) st)). reflexivity.
  - rewrite (proj2 (out_type_query hdr m native None st)). reflexivity.
Qed.

(** ** The runtime override *)

Lemma query_frame (hdr : headers) (m : platform) (native : bool)
    (auto_detect : option bool) (st : state) :
  let st' := out_state
               (__acpi_video_get_backlight_type hdr m native auto_detect st) in
  native_available st' = native_available st || native /\
  times ev_acpi_video_unregister_backlight st'
  = times ev_acpi_video_unregister_backlight st.
Proof.
  cbv zeta. rewrite out_state_query. cbv zeta.
  destruct (init_block_frame hdr m st) as (_ & Hn & _ & Hu).
  revert Hn Hu. generalize (init_block hdr m st). intros st1 Hn Hu.
  destruct (init_done st); cbn [negb];
    destruct native; cbn [native_available set_native_available];
    rewrite ?orb_true_r, ?orb_false_r; split;
    first [assumption | reflexivity].
Qed.

Lemma query_initialised_frame (hdr : headers) (m : platform) (native : bool)
    (auto_detect : option bool) (st : state) :
  init_done st = true ->
  let st' := out_state
               (__acpi_video_get_backlight_type hdr m native auto_detect st) in
  acpi_backlight_cmdline st' = acpi_backlight_cmdline st /\
  acpi_backlight_dmi st' = acpi_backlight_dmi st /\
  nvidia_wmi_ec_present st' = nvidia_wmi_ec_present st /\
  video_caps st' = video_caps st /\
  calls st' = calls st.
Proof.
  intro H. cbv zeta. rewrite (out_state_query_initialised _ _ _ _ _ H).
  destruct native; repeat split.
Qed.

(** C5: for every type, the setter stores it in [acpi_backlight_dmi], runs
    the query again on the variables so updated, and asks for the
    acpi-video backlight to be unregistered exactly when that query does
    not answer video.  Once the initialisation block has run, the stored
    type is still in place when the setter returns. *)
Theorem set_dmi_backlight_type_unregisters_unless_video (hdr : headers)
    (m : platform) (type : acpi_backlight_type) (st : state) :
  let r := acpi_video_get_backlight_type hdr m (set_acpi_backlight_dmi type st) in
  let st' := acpi_video_set_dmi_backlight_type hdr m type st in
  (init_done st = true -> acpi_backlight_dmi st' = type) /\
  (out_type r <> acpi_backlight_video ->
   st' = acpi_video_unregister_backlight (out_state r) /\
   times ev_acpi_video_unregister_backlight st'
   = S (times ev_acpi_video_unregister_backlight st)) /\
  (out_type r = acpi_backlight_video ->
   st' = out_state r /\
   times ev_acpi_video_unregister_backlight st'
   = times ev_acpi_video_unregister_backlight st).
Proof.
  cbv zeta. unfold acpi_video_set_dmi_backlight_type. cbv zeta.
  set (r := acpi_video_get_backlight_type hdr m (set_acpi_backlight_dmi type st)).
  assert (Hu : times ev_acpi_video_unregister_backlight (out_state r)
               = times ev_acpi_video_unregister_backlight st).
  { unfold r, acpi_video_get_backlight_type.
    now rewrite (proj2 (query_frame hdr m false None _)). }
  assert (Hd : init_done st = true -> acpi_backlight_dmi (out_state r) = type).
  { intro Hi. unfold r, acpi_video_get_backlight_type.
    now rewrite (proj1 (proj2 (query_initialised_frame hdr m false None
                                 (set_acpi_backlight_dmi type st) Hi))). }
  destruct (backlight_eqb (out_type r) acpi_backlight_video) eqn:E; cbn [negb].
  - apply backlight_eqb_eq in E.
    split; [exact Hd|]. split.
    + intro Hne. now elim Hne.
    + intros _. split; [reflexivity | exact Hu].
  - assert (Hne : out_type r <> acpi_backlight_video).
    { intro Heq. apply backlight_eqb_eq in Heq. congruence. }
    split; [exact Hd|]. split.
    + intros _. split; [reflexivity|].
      unfold acpi_video_unregister_backlight.
      now rewrite times_record_call, Hu.
    + intro Heq. now elim Hne.
Qed.

(** On an initialised Windows 8 laptop that uses ACPI video: forcing
    vendor asks for the unregistration, forcing video does not. *)
Lemma set_dmi_backlight_type_unregisters_unless_video_witness :
  let st := out_state (__acpi_video_get_backlight_type linux_x86 win8_laptop
                         false None boot) in
  init_done st = true /\
  acpi_backlight_dmi
    (acpi_video_set_dmi_backlight_type linux_x86 win8_laptop
       acpi_backlight_vendor st) = acpi_backlight_vendor /\
  times ev_acpi_video_unregister_backlight
    (acpi_video_set_dmi_backlight_type linux_x86 win8_laptop
       acpi_backlight_vendor st) = 1%nat /\
  times ev_acpi_video_unregister_backlight
    (acpi_video_set_dmi_backlight_type linux_x86 win8_laptop
       acpi_backlight_video st) = 0%nat.
Proof.
  pose (st := out_state (__acpi_video_get_backlight_type linux_x86 win8_laptop
                           false None boot)).
  split; [reflexivity|]. split; [|split].
  - exact (proj1 (set_dmi_backlight_type_unregisters_unless_video
                    linux_x86 win8_laptop acpi_backlight_vendor st) eq_refl).
  - refine (proj2 (proj1 (proj2
              (set_dmi_backlight_type_unregisters_unless_video
                 linux_x86 win8_laptop acpi_backlight_vendor st)) _)).
    discriminate.
  - exact (proj2 (proj2 (proj2
             (set_dmi_backlight_type_unregisters_unless_video
                linux_x86 win8_laptop acpi_backlight_video st)) eq_refl)).
Defined.

(** ** Sequences of calls *)

Lemma run_cons (hdr : headers) (c : platform * request)
    (cs : list (platform * request)) (st : state) :
  run hdr (c :: cs) st = run hdr cs (serve hdr st c).
Proof. reflexivity. Qed.

Lemma serve_native_available (hdr : headers) (st : state)
    (c : platform * request) :
  native_available (serve hdr st c) = native_available st || asserts_native c.
Proof.
  destruct c as [m [native auto_detect|type]];
    unfold serve, asserts_native; cbn [fst snd].
  - exact (proj1 (query_frame hdr m native auto_detect st)).
  - unfold acpi_video_set_dmi_backlight_type, acpi_video_get_backlight_type.
    cbv zeta.
    pose proof (proj1 (query_frame hdr m false None
                         (set_acpi_backlight_dmi type st))) as H.
    cbv zeta in H. cbn [native_available set_acpi_backlight_dmi] in H.
    revert H.
    generalize (__acpi_video_get_backlight_type hdr m false None
                  (set_acpi_backlight_dmi type st)).
    intros r H.
    destruct (negb (backlight_eqb (out_type r) acpi_backlight_video));
      exact H.
Qed.

(** C6: over any sequence of calls of the two entry points, the native
    flag after the sequence is the flag before it or-ed with the hints of
    the calls.  So a flag that is set stays set, calls that carry no hint
    (queries with native = false, the setter) leave the flag as it is and
    in particular never clear it, and the flag can only go from false to
    true through a query whose hint is true. *)
Theorem native_available_monotonic (hdr : headers)
    (cs : list (platform * request)) (st : state) :
  native_available (run hdr cs st)
  = native_available st || existsb asserts_native cs /\
  (native_available st = true -> native_available (run hdr cs st) = true) /\
  (existsb asserts_native cs = false ->
   native_available (run hdr cs st) = native_available st) /\
  (native_available st = false -> native_available (run hdr cs st) = true ->
   exists m auto_detect, In (m, get_backlight_type true auto_detect) cs).
Proof.
  assert (Heq : forall cs st,
             native_available (run hdr cs st)
             = native_available st || existsb asserts_native cs).
  { clear. intro cs. induction cs as [|c cs IH]; intro st.
    - cbn. now rewrite orb_false_r.
    - rewrite run_cons, IH, serve_native_available.
      cbn [existsb]. now rewrite orb_assoc. }
  split; [apply Heq|]. split; [|split].
  - intro H. now rewrite Heq, H.
  - intro H. now rewrite Heq, H, orb_false_r.
  - intros H0 H1. rewrite Heq, H0 in H1. cbn in H1.
    apply existsb_exists in H1. destruct H1 as ([m rq] & Hin & Ha).
    destruct rq as [native auto_detect|type]; cbn in Ha; [|discriminate].
    subst native. now exists m, auto_detect.
Qed.

(** A flag raised by the graphics driver survives a query without hint, an
    override and another query. *)
Lemma native_available_monotonic_witness :
  let st := out_state (__acpi_video_get_backlight_type linux_x86 win8_laptop
                         true None boot) in
  native_available st = true /\
  native_available
    (run linux_x86
       [(win8_laptop, get_backlight_type false (Some true));
        (bare_pc, set_dmi_backlight_type acpi_backlight_vendor);
        (win8_laptop, get_backlight_type false None)] st) = true.
Proof.
  split; [reflexivity|].
  exact (proj1 (proj2
           (native_available_monotonic linux_x86
              [(win8_laptop, get_backlight_type false (Some true));
               (bare_pc, set_dmi_backlight_type acpi_backlight_vendor);
               (win8_laptop, get_backlight_type false None)]
              (out_state (__acpi_video_get_backlight_type linux_x86 win8_laptop
                            true None boot))))
           eq_refl).
Defined.

(** ** The initialisation block *)

Lemma init_events_not_unregister (e : event) :
  In e init_events -> same_kind e ev_acpi_video_unregister_backlight = false.
Proof. intros [<-|[<-|[<-|[<-|[]]]]]; reflexivity. Qed.

(** A call made once the block has run. *)
Lemma serve_initialised (hdr : headers) (st : state) (c : platform * request) :
  init_done st = true ->
  let st' := serve hdr st c in
  init_done st' = true /\
  acpi_backlight_cmdline st' = acpi_backlight_cmdline st /\
  nvidia_wmi_ec_present st' = nvidia_wmi_ec_present st /\
  video_caps st' = video_caps st /\
  (forall e, In e init_events -> times e st' = times e st) /\
  (is_query c = true -> acpi_backlight_dmi st' = acpi_backlight_dmi st).
Proof.
  intro Hi. cbv zeta.
  destruct c as [m [native auto_detect|type]];
    unfold serve, is_query; cbn [fst snd].
  - destruct (query_initialised_frame hdr m native auto_detect st Hi)
      as (Hc & Hd & Hv & Hcaps & Hcalls).
    split; [apply init_done_query|].
    repeat (split; [assumption|]). split.
    + intros e _. unfold times. now rewrite Hcalls.
    + intros _. exact Hd.
  - unfold acpi_video_set_dmi_backlight_type, acpi_video_get_backlight_type.
    cbv zeta.
    assert (Hi0 : init_done (set_acpi_backlight_dmi type st) = true) by exact Hi.
    destruct (query_initialised_frame hdr m false None _ Hi0)
      as (Hc & _ & Hv & Hcaps & Hcalls).
    pose proof (init_done_query hdr m false None
                  (set_acpi_backlight_dmi type st)) as Hdone.
    revert Hc Hv Hcaps Hcalls Hdone.
    generalize (__acpi_video_get_backlight_type hdr m false None
                  (set_acpi_backlight_dmi type st)).
    intros r Hc Hv Hcaps Hcalls Hdone.
    assert (Ht : forall e, times e (out_state r) = times e st).
    { intro e. unfold times. now rewrite Hcalls. }
    destruct (negb (backlight_eqb (out_type r) acpi_backlight_video)).
    + unfold acpi_video_unregister_backlight.
      repeat (split; [assumption|]). split; [|discriminate].
      intros e He. rewrite times_record_call, Ht.
      now rewrite (init_events_not_unregister e He).
    + repeat (split; [assumption|]). split; [|discriminate].
      intros e _. apply Ht.
Qed.

(** The call that finds the block not yet run. *)
Lemma serve_uninitialised (hdr : headers) (st : state) (c : platform * request) :
  init_done st = false ->
  let st' := serve hdr st c in
  init_done st' = true /\
  (forall e, In e init_events -> times e st' = S (times e st)).
Proof.
  intro Hi. cbv zeta.
  assert (Hq : forall m native auto_detect st0,
             init_done st0 = false ->
             (forall e, times e st0 = times e st) ->
             let r := __acpi_video_get_backlight_type hdr m native auto_detect st0 in
             init_done (out_state r) = true /\
             (forall e, In e init_events ->
                        times e (out_state r) = S (times e st))).
  { intros m native auto_detect st0 Hi0 Ht. cbv zeta.
    split; [apply init_done_query|].
    intros e He. rewrite out_state_query, Hi0. cbn [negb]. cbv zeta.
    destruct (init_block_frame hdr m st0) as (_ & _ & Hev & _).
    specialize (Hev e He). rewrite Ht in Hev. revert Hev.
    generalize (init_block hdr m st0). intros st1 Hev.
    destruct native; exact Hev. }
  destruct c as [m [native auto_detect|type]]; unfold serve; cbn [fst snd].
  - apply Hq; [exact Hi | reflexivity].
  - unfold acpi_video_set_dmi_backlight_type, acpi_video_get_backlight_type.
    cbv zeta.
    destruct (Hq m false None (set_acpi_backlight_dmi type st) Hi
                (fun e => eq_refl)) as (Hdone & Hev).
    revert Hdone Hev.
    generalize (__acpi_video_get_backlight_type hdr m false None
                  (set_acpi_backlight_dmi type st)).
    intros r Hdone Hev.
    destruct (negb (backlight_eqb (out_type r) acpi_backlight_video)).
    + unfold acpi_video_unregister_backlight. split; [exact Hdone|].
      intros e He. rewrite times_record_call, (Hev e He).
      now rewrite (init_events_not_unregister e He).
    + split; assumption.
Qed.

Lemma run_initialised (hdr : headers) (cs : list (platform * request)) :
  forall st,
    init_done st = true ->
    let st' := run hdr cs st in
    init_done st' = true /\
    acpi_backlight_cmdline st' = acpi_backlight_cmdline st /\
    nvidia_wmi_ec_present st' = nvidia_wmi_ec_present st /\
    video_caps st' = video_caps st /\
    (forall e, In e init_events -> times e st' = times e st) /\
    (forallb is_query cs = true ->
     acpi_backlight_dmi st' = acpi_backlight_dmi st).
Proof.
  induction cs as [|c cs IH]; intros st Hi; cbv zeta.
  - repeat split; first [exact Hi | reflexivity].
  - rewrite run_cons.
    destruct (serve_initialised hdr st c Hi) as (H1 & H2 & H3 & H4 & H5 & H6).
    destruct (IH (serve hdr st c) H1) as (K1 & K2 & K3 & K4 & K5 & K6).
    split; [exact K1|]. split; [congruence|]. split; [congruence|].
    split; [congruence|]. split.
    + intros e He. now rewrite (K5 e He), (H5 e He).
    + cbn [forallb]. intro Hq. apply andb_true_iff in Hq.
      destruct Hq as (Hq1 & Hq2). now rewrite (K6 Hq2), (H6 Hq1).
Qed.

(** C7: starting from variables on which the block has not run, the first
    call runs each of its four steps once (the command line parse, the
    quirk table walk, the namespace walk, the vendor EC probe) and sets
    [init_done]; whatever calls follow, on whatever platform, [init_done]
    stays set, none of the four steps is run again, and the cached command
    line override, capability mask and vendor EC flag keep the values the
    first call gave them, as does the DMI override over any run of
    queries. *)
Theorem init_block_runs_exactly_once (hdr : headers) (st : state)
    (c : platform * request) (cs : list (platform * request)) :
  init_done st = false ->
  let st1 := serve hdr st c in
  let stn := run hdr cs st1 in
  (init_done st1 = true /\ init_done stn = true) /\
  (forall e, In e init_events ->
             times e st1 = S (times e st) /\ times e stn = times e st1) /\
  (acpi_backlight_cmdline stn = acpi_backlight_cmdline st1 /\
   video_caps stn = video_caps st1 /\
   nvidia_wmi_ec_present stn = nvidia_wmi_ec_present st1) /\
  (forallb is_query cs = true ->
   acpi_backlight_dmi stn = acpi_backlight_dmi st1).
Proof.
  intro Hi. cbv zeta.
  destruct (serve_uninitialised hdr st c Hi) as (H1 & H2).
  destruct (run_initialised hdr cs (serve hdr st c) H1)
    as (K1 & K2 & K3 & K4 & K5 & K6).
  split; [split; assumption|]. split; [|split].
  - intros e He. split; [exact (H2 e He) | exact (K5 e He)].
  - repeat split; assumption.
  - exact K6.
Qed.

(** From boot: a first query on a Windows 8 laptop, then a query with the
    native hint on a machine that now answers differently, then an
    override.  Every step of the block has run once, and the cached
    capability mask is still the laptop's. *)
Lemma init_block_runs_exactly_once_witness :
  let stn := run linux_x86
               [(win8_laptop, get_backlight_type false None);
                (with_cmdline "vendor" bare_pc, get_backlight_type true (Some false));
                (bare_pc, set_dmi_backlight_type acpi_backlight_native)] boot in
  init_done boot = false /\
  init_done stn = true /\
  times ev_acpi_video_parse_cmdline stn = 1%nat /\
  times ev_dmi_check_system stn = 1%nat /\
  times ev_acpi_walk_namespace stn = 1%nat /\
  times ev_nvidia_wmi_ec_supported stn = 1%nat /\
  acpi_backlight_cmdline stn = acpi_backlight_undef /\
  video_caps stn = 8.
Proof.
  pose proof (init_block_runs_exactly_once linux_x86 boot
                (win8_laptop, get_backlight_type false None)
                [(with_cmdline "vendor" bare_pc, get_backlight_type true (Some false));
                 (bare_pc, set_dmi_backlight_type acpi_backlight_native)]
                eq_refl) as H.
  cbv zeta in H. destruct H as ((_ & Hd) & Hev & (Hc & Hv & _) & _).
  split; [reflexivity|]. split; [exact Hd|].
  split; [exact (eq_trans (proj2 (Hev _ (or_introl eq_refl)))
                   (proj1 (Hev _ (or_introl eq_refl))))|].
  split; [exact (eq_trans (proj2 (Hev _ (or_intror (or_introl eq_refl))))
                   (proj1 (Hev _ (or_intror (or_introl eq_refl)))))|].
  split; [exact (eq_trans
                   (proj2 (Hev _ (or_intror (or_intror (or_introl eq_refl)))))
                   (proj1 (Hev _ (or_intror (or_intror (or_introl eq_refl))))))|].
  split; [exact (eq_trans
                   (proj2 (Hev _ (or_intror (or_intror (or_intror (or_introl eq_refl))))))
                   (proj1 (Hev _ (or_intror (or_intror (or_intror (or_introl eq_refl)))))))|].
  split; [exact Hc | exact Hv].
Defined.

(** ** Repeated queries *)

(** C8: two queries in a row on the same platform, the second of which
    brings no new native hint (its hint is false, or the first one already
    carried the hint), return the same type and leave the same
    variables. *)
Theorem consecutive_queries_agree (hdr : headers) (m : platform) (st : state)
    (native1 native2 : bool) (auto_detect1 auto_detect2 : option bool) :
  (native2 = true -> native1 = true) ->
  let r1 := __acpi_video_get_backlight_type hdr m native1 auto_detect1 st in
  let r2 := __acpi_video_get_backlight_type hdr m native2 auto_detect2
              (out_state r1) in
  out_type r2 = out_type r1 /\ out_state r2 = out_state r1.
Proof.
  intro Hn. cbv zeta.
  assert (Hs : out_state
                 (__acpi_video_get_backlight_type hdr m native2 auto_detect2
                    (out_state (__acpi_video_get_backlight_type hdr m native1
                                  auto_detect1 st)))
               = out_state (__acpi_video_get_backlight_type hdr m native1
                              auto_detect1 st)).
  { rewrite (out_state_query_initialised hdr m native2 auto_detect2 _
               (init_done_query hdr m native1 auto_detect1 st)).
    destruct native2; [|reflexivity].
    rewrite (Hn eq_refl), out_state_query. cbv zeta.
    generalize (if negb (init_done st) then init_block hdr m st else st).
    intro st1. reflexivity. }
  split; [|exact Hs].
  rewrite (proj1 (out_type_query hdr m native2 auto_detect2 _)), Hs.
  symmetry. exact (proj1 (out_type_query hdr m native1 auto_detect1 st)).
Qed.

(** Straight after boot, a driver's query with the native hint followed by
    a plain query. *)
Lemma consecutive_queries_agree_witness :
  let r1 := __acpi_video_get_backlight_type linux_x86 win8_laptop
              true (Some false) boot in
  let r2 := __acpi_video_get_backlight_type linux_x86 win8_laptop
              false None (out_state r1) in
  out_type r1 = acpi_backlight_native /\ out_type r2 = out_type r1.
Proof.
  split; [reflexivity|].
  refine (proj1 (consecutive_queries_agree linux_x86 win8_laptop boot
                   true false (Some false) None _)).
  discriminate.
Defined.

(** ** Clearing the DMI override *)

(** C10: the setter takes undef like any other type.  Once the block has
    run, setting undef leaves the DMI override cleared, it stays cleared
    over any run of queries, and every later query that finds no command
    line override is decided by steps 3 to 7 of the policy: the vendor EC,
    else video, native, none or vendor by autodetection, whatever the
    quirk table or an earlier override had stored. *)
Theorem set_dmi_undef_clears_override (hdr : headers) (m : platform)
    (st : state) (cs : list (platform * request)) :
  init_done st = true ->
  forallb is_query cs = true ->
  let st1 := acpi_video_set_dmi_backlight_type hdr m acpi_backlight_undef st in
  let st2 := run hdr cs st1 in
  acpi_backlight_dmi st1 = acpi_backlight_undef /\
  acpi_backlight_dmi st2 = acpi_backlight_undef /\
  forall m' native auto_detect,
    acpi_backlight_cmdline st2 = acpi_backlight_undef ->
    let r := __acpi_video_get_backlight_type hdr m' native auto_detect st2 in
    In (step_of hdr m' r)
       [step3_vendor_ec; step4_video; step5_native;
        step6_modern_none; step7_legacy_vendor] /\
    out_type r =
    if nvidia_wmi_ec_present st2 then acpi_backlight_nvidia_wmi_ec
    else if negb (Z.land (video_caps st2) (ACPI_VIDEO_BACKLIGHT hdr) =? 0)
            && negb ((native_available st2 || native)
                     && prefer_native_over_acpi_video m')
         then acpi_backlight_video
    else if native_available st2 || native then acpi_backlight_native
    else if acpi_osi_is_win8 m' then acpi_backlight_none
    else acpi_backlight_vendor.
Proof.
  intros Hi Hq. cbv zeta.
  pose proof (serve_initialised hdr st
                (m, set_dmi_backlight_type acpi_backlight_undef) Hi) as Hs.
  cbv zeta in Hs. unfold serve in Hs. cbn [fst snd] in Hs.
  destruct Hs as (Hi1 & _).
  assert (Hd1 : acpi_backlight_dmi
                  (acpi_video_set_dmi_backlight_type hdr m acpi_backlight_undef st)
                = acpi_backlight_undef).
  { unfold acpi_video_set_dmi_backlight_type, acpi_video_get_backlight_type.
    cbv zeta.
    pose proof (proj1 (proj2 (query_initialised_frame hdr m false None
                                (set_acpi_backlight_dmi acpi_backlight_undef st)
                                Hi))) as Hd.
    cbn [acpi_backlight_dmi set_acpi_backlight_dmi] in Hd. revert Hd.
    generalize (__acpi_video_get_backlight_type hdr m false None
                  (set_acpi_backlight_dmi acpi_backlight_undef st)).
    intros r Hd.
    destruct (negb (backlight_eqb (out_type r) acpi_backlight_video));
      exact Hd. }
  destruct (run_initialised hdr cs _ Hi1) as (Hi2 & _ & _ & _ & _ & Hd2).
  specialize (Hd2 Hq). rewrite Hd1 in Hd2.
  split; [exact Hd1|]. split; [exact Hd2|].
  revert Hi2 Hd2.
  generalize (run hdr cs
                (acpi_video_set_dmi_backlight_type hdr m acpi_backlight_undef st)).
  intros st2 Hi2 Hd2 m' native auto_detect Hc. cbv zeta.
  rewrite (proj1 (out_type_query hdr m' native auto_detect st2)).
  unfold step_of, precedence_policy, deciding_step.
  rewrite (out_state_query_initialised hdr m' native auto_detect st2 Hi2).
  unfold resolution_state, preferNativeOverVideo, prefer_native_over_acpi_video.
  cbn [cmdlineOverride dmiOverride videoCapable vendorEcPresent nativeAvailable].
  destruct native;
    cbn [acpi_backlight_cmdline acpi_backlight_dmi nvidia_wmi_ec_present
         native_available video_caps set_native_available];
    rewrite Hc, Hd2, ?orb_true_r, ?orb_false_r;
    destruct (nvidia_wmi_ec_present st2),
      (Z.land (video_caps st2) (ACPI_VIDEO_BACKLIGHT hdr) =? 0),
      (native_available st2), (acpi_osi_is_win8 m'),
      (google_cros_ec_present m');
    cbn; split; try reflexivity; tauto.
Qed.

(** A Samsung X360 is forced to vendor by the first entry of the table;
    after the override is cleared, and a further query, the ACPI video
    capability of the machine decides. *)
Lemma set_dmi_undef_clears_override_witness :
  let x360 := with_dmi samsung_x360 win8_laptop in
  let r0 := __acpi_video_get_backlight_type linux_x86 x360 false None boot in
  let st1 := acpi_video_set_dmi_backlight_type linux_x86 x360
               acpi_backlight_undef (out_state r0) in
  let st2 := run linux_x86 [(x360, get_backlight_type false (Some false))] st1 in
  out_type r0 = acpi_backlight_vendor /\
  acpi_backlight_dmi (out_state r0) = acpi_backlight_vendor /\
  acpi_backlight_dmi st2 = acpi_backlight_undef /\
  out_type (__acpi_video_get_backlight_type linux_x86 x360 false None st2)
  = acpi_backlight_video.
Proof.
  pose proof (set_dmi_undef_clears_override linux_x86
                (with_dmi samsung_x360 win8_laptop)
                (out_state (__acpi_video_get_backlight_type linux_x86
                              (with_dmi samsung_x360 win8_laptop) false None boot))
                [(with_dmi samsung_x360 win8_laptop,
                  get_backlight_type false (Some false))]
                eq_refl eq_refl) as H.
  cbv zeta in H. destruct H as (_ & Hd & Hq).
  split; [reflexivity|]. split; [reflexivity|]. split; [exact Hd|].
  exact (proj2 (Hq (with_dmi samsung_x360 win8_laptop) false None eq_refl)).
Defined.

(** ** The quirk table *)







(** A setter call that comes before any query finds the block not yet run:
    the query it makes runs the block, and on a machine the table knows the
    walk stores the quirk's type over the one just set.  On a Samsung X360
    an override set to undef, or to native, at boot ends up as vendor. *)
Lemma set_dmi_before_init_is_overwritten :
  let x360 := with_dmi samsung_x360 win8_laptop in
  init_done boot = false /\
  acpi_backlight_dmi
    (acpi_video_set_dmi_backlight_type linux_x86 x360 acpi_backlight_undef boot)
  = acpi_backlight_vendor /\
  acpi_backlight_dmi
    (acpi_video_set_dmi_backlight_type linux_x86 x360 acpi_backlight_native boot)
  = acpi_backlight_vendor.
Proof. repeat split; reflexivity. Qed.

(** * Further properties of video_detect.c *)

(** ** The capability scan *)

Lemma land_lor_zero (a b mask : Z) :
  (Z.land (Z.lor a b) mask =? 0)
  = (Z.land a mask =? 0) && (Z.land b mask =? 0).
Proof.
  rewrite Z.land_lor_distr_l.
  destruct (Z.eqb_spec (Z.land a mask) 0) as [Ea|Ea];
    destruct (Z.eqb_spec (Z.land b mask) 0) as [Eb|Eb]; cbn [andb];
    try (apply Z.eqb_eq; apply Z.lor_eq_0_iff; now split);
    apply Z.eqb_neq; intro H; apply Z.lor_eq_0_iff in H; tauto.
Qed.

Lemma land_lor_absorb (a b : Z) : Z.land a (Z.lor a b) = a.
Proof.
  apply Z.bits_inj'. intros n Hn.
  rewrite Z.land_spec, Z.lor_spec.
  destruct (Z.testbit a n), (Z.testbit b n); reflexivity.
Qed.

Lemma find_video_cases (handle : acpi_handle) (cap : Z) :
  find_video handle cap =
  if is_pci_video handle then Z.lor cap (acpi_is_video_device handle) else cap.
Proof.
  unfold find_video, is_pci_video.
  destruct (acpi_fetch_acpi_dev handle), (acpi_match_device_ids handle =? 0),
    (acpi_get_pci_dev handle); reflexivity.
Qed.

(** X1: the capability scan only ever adds bits.  After the walk a
    capability of [mask] is reported exactly when it was reported before
    the walk or when some handle that passes the three tests of
    [find_video] (an ACPI device, with the video hardware id, with a PCI
    device behind it) reports it; handles that fail a test contribute
    nothing, and no bit that was set is cleared. *)
Theorem acpi_walk_namespace_collects_caps (m : platform) (cap mask : Z) :
  (Z.land (acpi_walk_namespace m cap) mask =? 0)
  = (Z.land cap mask =? 0)
    && forallb (fun h => negb (is_pci_video h)
                         || (Z.land (acpi_is_video_device h) mask =? 0))
         (acpi_namespace m) /\
  Z.land cap (acpi_walk_namespace m cap) = cap.
Proof.
  unfold acpi_walk_namespace. generalize (acpi_namespace m).
  intro handles. revert cap mask.
  induction handles as [|h handles IH]; intros cap mask; cbn [fold_left forallb].
  - split; [now rewrite andb_true_r | apply Z.land_diag].
  - destruct (IH (find_video h cap) mask) as (H1 & _).
    destruct (IH (find_video h cap) cap) as (_ & H2).
    cbv zeta in H1, H2. split.
    + rewrite H1, find_video_cases.
      destruct (is_pci_video h); cbn [negb orb].
      * now rewrite land_lor_zero, andb_assoc.
      * reflexivity.
    + destruct (IH (find_video h cap) (find_video h cap)) as (_ & H3).
      cbv zeta in H3.
      assert (Hc : Z.land cap (find_video h cap) = cap).
      { rewrite find_video_cases.
        destruct (is_pci_video h); [apply land_lor_absorb | apply Z.land_diag]. }
      rewrite <- Hc at 1. rewrite <- Z.land_assoc, H3. exact Hc.
Qed.

Lemma find_video_commute (h1 h2 : acpi_handle) (cap : Z) :
  find_video h1 (find_video h2 cap) = find_video h2 (find_video h1 cap).
Proof.
  rewrite !find_video_cases.
  destruct (is_pci_video h1), (is_pci_video h2); try reflexivity.
  rewrite <- !Z.lor_assoc.
  now rewrite (Z.lor_comm (acpi_is_video_device h2)).
Qed.

(** X2: the capabilities that the scan collects do not depend on the
    order in which the namespace is walked. *)
Theorem acpi_walk_namespace_order_irrelevant (m m' : platform) (cap : Z) :
  Permutation (acpi_namespace m) (acpi_namespace m') ->
  acpi_walk_namespace m cap = acpi_walk_namespace m' cap.
Proof.
  unfold acpi_walk_namespace. intro H. revert cap.
  induction H as [|h l l' _ IH|h1 h2 l|l1 l2 l3 _ IH1 _ IH2]; intro cap;
    cbn [fold_left].
  - reflexivity.
  - apply IH.
  - now rewrite find_video_commute.
  - now rewrite IH1.
Qed.

(** Three handles in two orders: the orphan adds nothing either way. *)
Lemma acpi_walk_namespace_order_irrelevant_witness :
  acpi_walk_namespace
    (with_namespace [video_handle; orphan_handle; switching_handle] bare_pc) 0
  = acpi_walk_namespace
      (with_namespace [switching_handle; video_handle; orphan_handle] bare_pc) 0.
Proof.
  apply acpi_walk_namespace_order_irrelevant.
  cbn [acpi_namespace with_namespace].
  apply Permutation_sym.
  exact (Permutation_cons_app [video_handle; orphan_handle] []
           switching_handle (Permutation_refl _)).
Defined.

(** ** What the initialisation block stores *)

Lemma acpi_video_parse_cmdline_record_call (m : platform) (e : event)
    (st : state) :
  acpi_video_parse_cmdline m (record_call e st)
  = record_call e (acpi_video_parse_cmdline m st).
Proof.
  unfold acpi_video_parse_cmdline.
  repeat match goal with
         | |- context [if ?c then _ else _] => destruct c
         end; reflexivity.
Qed.

Lemma acpi_video_parse_cmdline_set_dmi (m : platform)
    (type : acpi_backlight_type) (st : state) :
  acpi_video_parse_cmdline m (set_acpi_backlight_dmi type st)
  = set_acpi_backlight_dmi type (acpi_video_parse_cmdline m st).
Proof.
  unfold acpi_video_parse_cmdline.
  repeat match goal with
         | |- context [if ?c then _ else _] => destruct c
         end; reflexivity.
Qed.

Lemma init_block_fields (hdr : headers) (m : platform) (st : state) :
  let st' := init_block hdr m st in
  nvidia_wmi_ec_present st' = nvidia_wmi_ec_supported hdr m /\
  video_caps st' = acpi_walk_namespace m (video_caps st) /\
  acpi_backlight_cmdline st'
  = acpi_backlight_cmdline (acpi_video_parse_cmdline m st).
Proof.
  cbv zeta. unfold init_block.
  generalize video_detect_dmi_table. intro table.
  split; [reflexivity|].
  cbn [video_caps acpi_backlight_cmdline set_init_done
       set_nvidia_wmi_ec_present set_video_caps record_call].
  destruct (dmi_check_system_frame hdr m table
              (record_call ev_dmi_check_system
                 (acpi_video_parse_cmdline m
                    (record_call ev_acpi_video_parse_cmdline st))))
    as (Hc & _ & _ & _ & Hv & _).
  rewrite Hc, Hv.
  cbn [video_caps acpi_backlight_cmdline record_call].
  rewrite acpi_video_parse_cmdline_record_call.
  cbn [video_caps acpi_backlight_cmdline record_call].
  now rewrite (proj1 (proj2 (proj2 (proj2 (proj2
                (acpi_video_parse_cmdline_frame m st)))))).
Qed.

(** The fields a setter call or a query leaves as the query of the setter
    left them. *)
Lemma set_dmi_as_query (hdr : headers) (m : platform)
    (type : acpi_backlight_type) (st : state) :
  let r := __acpi_video_get_backlight_type hdr m false None
             (set_acpi_backlight_dmi type st) in
  let st' := acpi_video_set_dmi_backlight_type hdr m type st in
  acpi_backlight_cmdline st' = acpi_backlight_cmdline (out_state r) /\
  acpi_backlight_dmi st' = acpi_backlight_dmi (out_state r) /\
  nvidia_wmi_ec_present st' = nvidia_wmi_ec_present (out_state r) /\
  native_available st' = native_available (out_state r) /\
  init_done st' = init_done (out_state r) /\
  video_caps st' = video_caps (out_state r) /\
  times ev_acpi_video_unregister_backlight st'
  = ((if backlight_eqb (out_type r) acpi_backlight_video then 0 else 1)
     + times ev_acpi_video_unregister_backlight (out_state r))%nat.
Proof.
  cbv zeta.
  unfold acpi_video_set_dmi_backlight_type, acpi_video_get_backlight_type.
  cbv zeta.
  generalize (__acpi_video_get_backlight_type hdr m false None
                (set_acpi_backlight_dmi type st)).
  intro r.
  destruct (backlight_eqb (out_type r) acpi_backlight_video); cbn [negb].
  - repeat split.
  - unfold acpi_video_unregister_backlight. repeat split.
Qed.

(** X3: the values that the block caches are those of the platform as it
    is when the first call is served.  Starting from the initial
    variables, after any non-empty sequence of calls the capability mask
    is the scan of the first platform's namespace, the vendor EC flag is
    the first platform's answer to the WMI query, and the command line
    override is what the first platform's parameter buffer parses to,
    whatever the later platforms answer. *)
Theorem first_call_fills_the_cache (hdr : headers) (c : platform * request)
    (cs : list (platform * request)) :
  let stn := run hdr (c :: cs) boot in
  video_caps stn = acpi_walk_namespace (fst c) 0 /\
  nvidia_wmi_ec_present stn = nvidia_wmi_ec_supported hdr (fst c) /\
  acpi_backlight_cmdline stn
  = acpi_backlight_cmdline (acpi_video_parse_cmdline (fst c) boot).
Proof.
  cbv zeta. rewrite run_cons.
  assert (H1 : init_done (serve hdr boot c) = true /\
               video_caps (serve hdr boot c) = acpi_walk_namespace (fst c) 0 /\
               nvidia_wmi_ec_present (serve hdr boot c)
               = nvidia_wmi_ec_supported hdr (fst c) /\
               acpi_backlight_cmdline (serve hdr boot c)
               = acpi_backlight_cmdline (acpi_video_parse_cmdline (fst c) boot)).
  { assert (Hq : forall m native auto_detect st0,
               init_done st0 = false ->
               let r := __acpi_video_get_backlight_type hdr m native
                          auto_detect st0 in
               video_caps (out_state r) = acpi_walk_namespace m (video_caps st0) /\
               nvidia_wmi_ec_present (out_state r) = nvidia_wmi_ec_supported hdr m /\
               acpi_backlight_cmdline (out_state r)
               = acpi_backlight_cmdline (acpi_video_parse_cmdline m st0)).
    { intros m native auto_detect st0 Hi0. cbv zeta.
      rewrite out_state_query, Hi0. cbn [negb]. cbv zeta.
      destruct (init_block_fields hdr m st0) as (Hn & Hv & Hc).
      revert Hn Hv Hc. generalize (init_block hdr m st0).
      intros st1 Hn Hv Hc. destruct native; repeat split; assumption. }
    split; [exact (proj1 (serve_uninitialised hdr boot c eq_refl))|].
    destruct c as [m [native auto_detect|type]]; unfold serve; cbn [fst snd].
    - exact (Hq m native auto_detect boot eq_refl).
    - destruct (set_dmi_as_query hdr m type boot)
        as (Ec & _ & En & _ & _ & Ev & _).
      rewrite Ec, En, Ev.
      pose proof (Hq m false None (set_acpi_backlight_dmi type boot) eq_refl)
        as H.
      cbv zeta in H. rewrite acpi_video_parse_cmdline_set_dmi in H.
      exact H. }
  destruct H1 as (Hi & Hv & Hn & Hc).
  destruct (run_initialised hdr cs _ Hi) as (_ & Kc & Kn & Kv & _).
  rewrite Kc, Kn, Kv. repeat split; assumption.
Qed.


(** ** Which step decides *)

Lemma query_by_override (hdr : headers) (m : platform) (native : bool)
    (auto_detect : option bool) (st : state) :
  let r := __acpi_video_get_backlight_type hdr m native auto_detect st in
  (acpi_backlight_cmdline (out_state r) <> acpi_backlight_undef ->
   out_type r = acpi_backlight_cmdline (out_state r) /\
   out_auto_detect r = option_map (fun _ => false) auto_detect) /\
  (acpi_backlight_cmdline (out_state r) = acpi_backlight_undef ->
   acpi_backlight_dmi (out_state r) <> acpi_backlight_undef ->
   out_type r = acpi_backlight_dmi (out_state r) /\
   out_auto_detect r = option_map (fun _ => false) auto_detect).
Proof.
  cbv zeta.
  destruct (out_type_query hdr m native auto_detect st) as (Ht & Ha).
  cbv zeta in Ht, Ha. rewrite Ht, Ha.
  unfold step_of, precedence_policy, deciding_step, resolution_state.
  cbn [cmdlineOverride dmiOverride].
  generalize (out_state
                (__acpi_video_get_backlight_type hdr m native auto_detect st)).
  intro st'. split.
  - intro Hc. destruct (acpi_backlight_cmdline st'); now split.
  - intros Hc Hd. rewrite Hc.
    destruct (acpi_backlight_dmi st'); now split.
Qed.

Lemma query_nvidia_wmi_ec_present (hdr : headers) (m : platform)
    (native : bool) (auto_detect : option bool) (st : state) :
  nvidia_wmi_ec_present
    (out_state (__acpi_video_get_backlight_type hdr m native auto_detect st))
  = if init_done st then nvidia_wmi_ec_present st
    else nvidia_wmi_ec_supported hdr m.
Proof.
  rewrite out_state_query. cbv zeta.
  pose proof (proj1 (init_block_fields hdr m st)) as Hn. revert Hn.
  generalize (init_block hdr m st). intros st1 Hn.
  destruct (init_done st); cbn [negb]; destruct native; try reflexivity;
    exact Hn.
Qed.

Lemma serve_nvidia_wmi_ec_present (hdr : headers) (st : state)
    (c : platform * request) :
  nvidia_wmi_ec_present (serve hdr st c)
  = if init_done st then nvidia_wmi_ec_present st
    else nvidia_wmi_ec_supported hdr (fst c).
Proof.
  destruct c as [m [native auto_detect|type]]; unfold serve; cbn [fst snd].
  - apply query_nvidia_wmi_ec_present.
  - rewrite (proj1 (proj2 (proj2 (set_dmi_as_query hdr m type st)))).
    apply (query_nvidia_wmi_ec_present hdr m false None
             (set_acpi_backlight_dmi type st)).
Qed.

(** X4: in a build without CONFIG_X86 the vendor EC never decides.
    Whatever calls were served since boot and whatever the platforms
    answer, the vendor EC flag is clear after a query, and a query returns
    nvidia_wmi_ec only when the command line override or the DMI override
    holds that very value. *)
Theorem vendor_ec_needs_x86 (hdr : headers) (cs : list (platform * request))
    (m : platform) (native : bool) (auto_detect : option bool) :
  CONFIG_X86 hdr = false ->
  let r := __acpi_video_get_backlight_type hdr m native auto_detect
             (run hdr cs boot) in
  nvidia_wmi_ec_present (out_state r) = false /\
  (out_type r = acpi_backlight_nvidia_wmi_ec ->
   acpi_backlight_cmdline (out_state r) = acpi_backlight_nvidia_wmi_ec \/
   acpi_backlight_dmi (out_state r) = acpi_backlight_nvidia_wmi_ec).
Proof.
  intro Hx. cbv zeta.
  assert (Hprobe : forall m', nvidia_wmi_ec_supported hdr m' = false).
  { intro m'. unfold nvidia_wmi_ec_supported. now rewrite Hx. }
  assert (Hrun : forall cs st, nvidia_wmi_ec_present st = false ->
                               nvidia_wmi_ec_present (run hdr cs st) = false).
  { clear cs. intro cs. induction cs as [|c cs IH]; intros st Hst.
    - exact Hst.
    - rewrite run_cons. apply IH. rewrite serve_nvidia_wmi_ec_present.
      destruct (init_done st); [exact Hst | apply Hprobe]. }
  assert (Hn : nvidia_wmi_ec_present
                 (out_state (__acpi_video_get_backlight_type hdr m native
                               auto_detect (run hdr cs boot))) = false).
  { rewrite query_nvidia_wmi_ec_present.
    destruct (init_done (run hdr cs boot));
      [apply Hrun; reflexivity | apply Hprobe]. }
  split; [exact Hn|].
  rewrite (proj1 (out_type_query hdr m native auto_detect _)).
  unfold precedence_policy, deciding_step, resolution_state.
  cbn [cmdlineOverride dmiOverride videoCapable vendorEcPresent nativeAvailable].
  rewrite Hn.
  generalize (out_state (__acpi_video_get_backlight_type hdr m native
                           auto_detect (run hdr cs boot))).
  intro st'.
  destruct (acpi_backlight_cmdline st'); try (intro H; now left);
    destruct (acpi_backlight_dmi st'); try (intro H; now right);
    destruct (negb (Z.land (video_caps st') (ACPI_VIDEO_BACKLIGHT hdr) =? 0)
              && negb (native_available st'
                       && preferNativeOverVideo (acpi_osi_is_win8 m)
                            (google_cros_ec_present m)));
    try discriminate;
    destruct (native_available st'); try discriminate;
    destruct (acpi_osi_is_win8 m); discriminate.
Qed.

(** A build for another architecture on the laptop whose firmware names
    the EC: the query falls through to ACPI video. *)
Lemma vendor_ec_needs_x86_witness :
  out_type (__acpi_video_get_backlight_type linux_x86 nvidia_ec_laptop
              false None boot) = acpi_backlight_nvidia_wmi_ec /\
  out_type (__acpi_video_get_backlight_type linux_other_arch nvidia_ec_laptop
              false None boot) = acpi_backlight_video /\
  nvidia_wmi_ec_present
    (out_state (__acpi_video_get_backlight_type linux_other_arch
                  nvidia_ec_laptop false None
                  (run linux_other_arch
                     [(nvidia_ec_laptop, get_backlight_type true None)] boot)))
  = false.
Proof.
  split; [reflexivity|]. split; [reflexivity|].
  exact (proj1 (vendor_ec_needs_x86 linux_other_arch
                  [(nvidia_ec_laptop, get_backlight_type true None)]
                  nvidia_ec_laptop false None eq_refl)).
Defined.

(** X5: the command line takes precedence over anything else.  Once the
    block has run and stored a command line override, every later query
    returns it and reports no autodetection, whatever queries and setter
    calls come in between and whatever the platform answers. *)
Theorem command_line_takes_precedence (hdr : headers) (st : state)
    (cs : list (platform * request)) (m : platform) (native : bool)
    (auto_detect : option bool) :
  init_done st = true ->
  acpi_backlight_cmdline st <> acpi_backlight_undef ->
  let r := __acpi_video_get_backlight_type hdr m native auto_detect
             (run hdr cs st) in
  out_type r = acpi_backlight_cmdline st /\
  out_auto_detect r = option_map (fun _ => false) auto_detect.
Proof.
  intros Hi Hc. cbv zeta.
  destruct (run_initialised hdr cs st Hi) as (Hi' & Hc' & _).
  pose proof (proj1 (query_initialised_frame hdr m native auto_detect _ Hi'))
    as Hq.
  cbv zeta in Hq. rewrite Hc' in Hq.
  destruct (proj1 (query_by_override hdr m native auto_detect (run hdr cs st)))
    as (Ht & Ha).
  - rewrite Hq. exact Hc.
  - rewrite Ht, Hq. split; [reflexivity | exact Ha].
Qed.

(** Booted with acpi_backlight=vendor on a laptop with ACPI video: the
    native hint and a video override change nothing. *)
Lemma command_line_takes_precedence_witness :
  let m := with_cmdline "vendor" win8_laptop in
  let st := out_state (__acpi_video_get_backlight_type linux_x86 m
                         false None boot) in
  acpi_backlight_cmdline st = acpi_backlight_vendor /\
  out_type (__acpi_video_get_backlight_type linux_x86 m true (Some true)
              (run linux_x86
                 [(m, set_dmi_backlight_type acpi_backlight_video);
                  (m, get_backlight_type true None)] st))
  = acpi_backlight_vendor.
Proof.
  split; [reflexivity|].
  refine (proj1 (command_line_takes_precedence linux_x86
                   (out_state (__acpi_video_get_backlight_type linux_x86
                                 (with_cmdline "vendor" win8_laptop)
                                 false None boot))
                   [(with_cmdline "vendor" win8_laptop,
                     set_dmi_backlight_type acpi_backlight_video);
                    (with_cmdline "vendor" win8_laptop,
                     get_backlight_type true None)]
                   (with_cmdline "vendor" win8_laptop) true (Some true)
                   eq_refl _)).
  discriminate.
Defined.

(** ** Overrides over a sequence of calls *)

Lemma serve_initialised_dmi (hdr : headers) (st : state)
    (c : platform * request) :
  init_done st = true ->
  acpi_backlight_dmi (serve hdr st c) = last_dmi_set [c] (acpi_backlight_dmi st).
Proof.
  intro Hi. destruct c as [m [native auto_detect|type]];
    unfold serve, last_dmi_set; cbn [fst snd fold_left].
  - exact (proj1 (proj2 (query_initialised_frame hdr m native auto_detect st Hi))).
  - rewrite (proj1 (proj2 (set_dmi_as_query hdr m type st))).
    exact (proj1 (proj2 (query_initialised_frame hdr m false None
                           (set_acpi_backlight_dmi type st) Hi))).
Qed.

Lemma run_initialised_dmi (hdr : headers) (cs : list (platform * request)) :
  forall st,
    init_done st = true ->
    acpi_backlight_dmi (run hdr cs st) = last_dmi_set cs (acpi_backlight_dmi st).
Proof.
  induction cs as [|c cs IH]; intros st Hi.
  - reflexivity.
  - rewrite run_cons, IH.
    + now rewrite serve_initialised_dmi.
    + exact (proj1 (serve_initialised hdr st c Hi)).
Qed.

(** X6: once the block has run, the DMI override is whatever the last
    setter call stored, or what it was when no setter was called; queries
    never change it.  When the command line is silent and that last value
    is not undef, the next query returns it and reports no
    autodetection. *)
Theorem last_setter_wins (hdr : headers) (st : state)
    (cs : list (platform * request)) :
  init_done st = true ->
  let type := last_dmi_set cs (acpi_backlight_dmi st) in
  acpi_backlight_dmi (run hdr cs st) = type /\
  (acpi_backlight_cmdline st = acpi_backlight_undef ->
   type <> acpi_backlight_undef ->
   forall m native auto_detect,
     let r := __acpi_video_get_backlight_type hdr m native auto_detect
                (run hdr cs st) in
     out_type r = type /\
     out_auto_detect r = option_map (fun _ => false) auto_detect).
Proof.
  intro Hi. cbv zeta.
  pose proof (run_initialised_dmi hdr cs st Hi) as Hd.
  split; [exact Hd|].
  intros Hc Hne m native auto_detect.
  destruct (run_initialised hdr cs st Hi) as (Hi' & Hc' & _).
  destruct (query_initialised_frame hdr m native auto_detect _ Hi')
    as (Qc & Qd & _).
  destruct (proj2 (query_by_override hdr m native auto_detect (run hdr cs st)))
    as (Ht & Ha).
  - now rewrite Qc, Hc'.
  - now rewrite Qd, Hd.
  - rewrite Ht, Qd, Hd. split; [reflexivity | exact Ha].
Qed.

(** A platform driver forces vendor, another one then forces native, the
    GPU driver queries in between: native it is. *)
Lemma last_setter_wins_witness :
  let st := out_state (__acpi_video_get_backlight_type linux_x86 win7_laptop
                         false None boot) in
  let cs := [(win7_laptop, set_dmi_backlight_type acpi_backlight_vendor);
             (win7_laptop, get_backlight_type true None);
             (win7_laptop, set_dmi_backlight_type acpi_backlight_native)] in
  acpi_backlight_dmi (run linux_x86 cs st) = acpi_backlight_native /\
  out_type (__acpi_video_get_backlight_type linux_x86 win7_laptop false None
              (run linux_x86 cs st)) = acpi_backlight_native.
Proof.
  pose proof (last_setter_wins linux_x86
                (out_state (__acpi_video_get_backlight_type linux_x86
                              win7_laptop false None boot))
                [(win7_laptop, set_dmi_backlight_type acpi_backlight_vendor);
                 (win7_laptop, get_backlight_type true None);
                 (win7_laptop, set_dmi_backlight_type acpi_backlight_native)]
                eq_refl) as H.
  cbv zeta in H. destruct H as (Hd & Hq).
  split; [exact Hd|].
  refine (proj1 (Hq eq_refl _ win7_laptop false None)).
  discriminate.
Defined.

Lemma setter_calls_cons (c : platform * request)
    (cs : list (platform * request)) :
  setter_calls (c :: cs)
  = ((if is_query c then 0 else 1) + setter_calls cs)%nat.
Proof.
  unfold setter_calls. cbn [filter]. destruct (is_query c); reflexivity.
Qed.

Lemma serve_unregister_calls (hdr : headers) (st : state)
    (c : platform * request) :
  times ev_acpi_video_unregister_backlight (serve hdr st c)
  = (times ev_acpi_video_unregister_backlight st
     + match snd c with
       | get_backlight_type _ _ => 0
       | set_dmi_backlight_type type =>
           if backlight_eqb
                (out_type (acpi_video_get_backlight_type hdr (fst c)
                             (set_acpi_backlight_dmi type st)))
                acpi_backlight_video
           then 0 else 1
       end)%nat.
Proof.
  destruct c as [m [native auto_detect|type]]; unfold serve; cbn [fst snd].
  - rewrite (proj2 (query_frame hdr m native auto_detect st)). apply plus_n_O.
  - rewrite (proj2 (proj2 (proj2 (proj2 (proj2 (proj2
               (set_dmi_as_query hdr m type st))))))).
    rewrite (proj2 (query_frame hdr m false None
                      (set_acpi_backlight_dmi type st))).
    unfold acpi_video_get_backlight_type.
    change (times ev_acpi_video_unregister_backlight
              (set_acpi_backlight_dmi type st))
      with (times ev_acpi_video_unregister_backlight st).
    apply Nat.add_comm.
Qed.

(** X7: when the block has stored a command line override, it is the
    command line that decides whether setter calls drop the acpi-video
    backlight.  With acpi_backlight=video no setter call ever asks for the
    unregistration, whatever type it passes; with any other recognised
    value every setter call asks for it, video included. *)
Theorem command_line_decides_unregistration (hdr : headers) (st : state)
    (cs : list (platform * request)) :
  init_done st = true ->
  acpi_backlight_cmdline st <> acpi_backlight_undef ->
  times ev_acpi_video_unregister_backlight (run hdr cs st)
  = (times ev_acpi_video_unregister_backlight st
     + if backlight_eqb (acpi_backlight_cmdline st) acpi_backlight_video
       then 0 else setter_calls cs)%nat.
Proof.
  intros Hi Hc. revert st Hi Hc.
  induction cs as [|c cs IH]; intros st Hi Hc.
  - cbn. destruct (backlight_eqb _ _); now rewrite Nat.add_0_r.
  - rewrite run_cons.
    destruct (serve_initialised hdr st c Hi) as (Hi1 & Hc1 & _).
    rewrite IH, Hc1, serve_unregister_calls, setter_calls_cons;
      [|exact Hi1|now rewrite Hc1].
    destruct c as [m [native auto_detect|type]]; cbn [fst snd is_query].
    + destruct (backlight_eqb _ _); lia.
    + unfold acpi_video_get_backlight_type.
      assert (Hi0 : init_done (set_acpi_backlight_dmi type st) = true)
        by exact Hi.
      pose proof (proj1 (query_initialised_frame hdr m false None _ Hi0)) as Qc.
      cbv zeta in Qc.
      destruct (proj1 (query_by_override hdr m false None
                         (set_acpi_backlight_dmi type st))) as (Ht & _).
      * rewrite Qc. exact Hc.
      * rewrite Ht, Qc.
        change (acpi_backlight_cmdline (set_acpi_backlight_dmi type st))
          with (acpi_backlight_cmdline st).
        destruct (backlight_eqb (acpi_backlight_cmdline st)
                    acpi_backlight_video); lia.
Qed.

(** Booted with acpi_backlight=video, then with acpi_backlight=native: two
    setter calls and a query. *)
Lemma command_line_decides_unregistration_witness :
  let cs := [(win8_laptop, set_dmi_backlight_type acpi_backlight_vendor);
             (win8_laptop, get_backlight_type false None);
             (win8_laptop, set_dmi_backlight_type acpi_backlight_video)] in
  let boot_with s :=
    out_state (__acpi_video_get_backlight_type linux_x86
                 (with_cmdline s win8_laptop) false None boot) in
  times ev_acpi_video_unregister_backlight
    (run linux_x86 cs (boot_with "video")) = 0%nat /\
  times ev_acpi_video_unregister_backlight
    (run linux_x86 cs (boot_with "native")) = 2%nat.
Proof.
  split.
  - refine (command_line_decides_unregistration linux_x86
              (out_state (__acpi_video_get_backlight_type linux_x86
                            (with_cmdline "video" win8_laptop) false None boot))
              _ eq_refl _).
    discriminate.
  - refine (command_line_decides_unregistration linux_x86
              (out_state (__acpi_video_get_backlight_type linux_x86
                            (with_cmdline "native" win8_laptop) false None boot))
              _ eq_refl _).
    discriminate.
Defined.

(** X8: a query never asks for the acpi-video backlight to be
    unregistered, not even the first one, and a setter call asks at most
    once.  Over any sequence of calls from any variables the number of
    requests grows by at most the number of setter calls, and not at all
    over queries alone. *)
Theorem unregister_only_from_setter (hdr : headers)
    (cs : list (platform * request)) (st : state) :
  (times ev_acpi_video_unregister_backlight st
   <= times ev_acpi_video_unregister_backlight (run hdr cs st)
   <= times ev_acpi_video_unregister_backlight st + setter_calls cs)%nat /\
  (forallb is_query cs = true ->
   times ev_acpi_video_unregister_backlight (run hdr cs st)
   = times ev_acpi_video_unregister_backlight st).
Proof.
  assert (H : forall cs st,
             (times ev_acpi_video_unregister_backlight st
              <= times ev_acpi_video_unregister_backlight (run hdr cs st)
              <= times ev_acpi_video_unregister_backlight st
                 + setter_calls cs)%nat).
  { clear. intro cs. induction cs as [|c cs IH]; intro st.
    - cbn. lia.
    - rewrite run_cons, setter_calls_cons.
      specialize (IH (serve hdr st c)).
      rewrite serve_unregister_calls in IH.
      destruct c as [m [native auto_detect|type]];
        cbn [fst snd is_query] in *.
      + lia.
      + destruct (backlight_eqb _ _); lia. }
  split; [apply H|].
  intro Hq. specialize (H cs st).
  assert (Hz : setter_calls cs = 0%nat).
  { clear H. unfold setter_calls. induction cs as [|c cs IH]; [reflexivity|].
    cbn [forallb] in Hq. apply andb_true_iff in Hq. destruct Hq as (Hq1 & Hq2).
    cbn [filter]. rewrite Hq1. cbn [negb]. now apply IH. }
  lia.
Qed.

(** ** The arguments of the query *)

(** X9: the [auto_detect] pointer is an output only.  Whether the caller
    passes NULL or a pointer, and whatever the pointed-to flag holds, the
    type returned and the variables left behind are the same. *)
Theorem auto_detect_is_output_only (hdr : headers) (m : platform)
    (native : bool) (auto_detect1 auto_detect2 : option bool) (st : state) :
  let r1 := __acpi_video_get_backlight_type hdr m native auto_detect1 st in
  let r2 := __acpi_video_get_backlight_type hdr m native auto_detect2 st in
  out_type r1 = out_type r2 /\ out_state r1 = out_state r2.
Proof.
  cbv zeta.
  assert (Hs : out_state (__acpi_video_get_backlight_type hdr m native
                            auto_detect1 st)
               = out_state (__acpi_video_get_backlight_type hdr m native
                              auto_detect2 st))
    by now rewrite !out_state_query.
  split; [|exact Hs].
  rewrite (proj1 (out_type_query hdr m native auto_detect1 st)).
  rewrite (proj1 (out_type_query hdr m native auto_detect2 st)).
  now rewrite Hs.
Qed.

(** ** More on the command line parser *)

(** X10: the parser writes to [acpi_backlight_cmdline] and to nothing
    else: the DMI override, the cached probes, the flags and the call log
    are as before.  Parsing the same buffer again changes nothing. *)
Theorem acpi_video_parse_cmdline_only_sets_cmdline (m : platform) (st : state) :
  let st' := acpi_video_parse_cmdline m st in
  st' = set_acpi_backlight_cmdline (acpi_backlight_cmdline st') st /\
  acpi_video_parse_cmdline m st' = st'.
Proof.
  cbv zeta. unfold acpi_video_parse_cmdline.
  destruct st as [c d n a i v l].
  repeat match goal with
         | |- context [if ?c then _ else _] => destruct c
         end; split; reflexivity.
Qed.

(** ** The quirk callbacks *)

Lemma callbacks_store_vendor_video_or_native :
  stores_vendor_video_or_native video_detect_force_vendor /\
  stores_vendor_video_or_native video_detect_force_video /\
  stores_vendor_video_or_native video_detect_force_native /\
  stores_vendor_video_or_native video_detect_portege_r100.
Proof.
  repeat split; try reflexivity; cbn; try tauto.
  destruct (pci_get_device m (PCI_VENDOR_ID_TRIDENT hdr) 8448); tauto.
Qed.

Lemma table_stores_vendor_video_or_native :
  Forall (fun d => stores_vendor_video_or_native (callback d))
    video_detect_dmi_table.
Proof.
  destruct callbacks_store_vendor_video_or_native as (Hv & Hvid & Hn & Hp).
  unfold video_detect_dmi_table.
  repeat (apply Forall_cons;
          [first [exact Hv | exact Hvid | exact Hn | exact Hp]|]).
  apply Forall_nil.
Qed.

Lemma dmi_check_system_stores (hdr : headers) (m : platform)
    (table : list dmi_system_id) :
  Forall (fun d => stores_vendor_video_or_native (callback d)) table ->
  forall st,
    let st' := dmi_check_system hdr m table st in
    acpi_backlight_dmi st' = acpi_backlight_dmi st \/
    In (acpi_backlight_dmi st')
       [acpi_backlight_vendor; acpi_backlight_video; acpi_backlight_native].
Proof.
  induction 1 as [|d table Hd _ IH]; intro st; cbn [dmi_check_system].
  - now left.
  - destruct (dmi_matches m d); [|apply IH].
    cbv zeta.
    set (st1 := match cb_store (callback d hdr m) with
                | Some t =>
                    set_acpi_backlight_dmi t (record_call (ev_dmi_callback d) st)
                | None => record_call (ev_dmi_callback d) st
                end).
    assert (H1 : acpi_backlight_dmi st1 = acpi_backlight_dmi st \/
                 In (acpi_backlight_dmi st1)
                    [acpi_backlight_vendor; acpi_backlight_video;
                     acpi_backlight_native]).
    { unfold st1. destruct (Hd hdr m) as (_ & Hs).
      destruct (cb_store (callback d hdr m)) as [type|]; [|now left].
      right. cbn in Hs. cbn.
      destruct Hs as [Hs|[Hs|[Hs|[Hs|[]]]]]; try discriminate Hs;
        inversion Hs; tauto. }
    clearbody st1.
    destruct (negb (cb_ret (callback d hdr m) =? 0)); [exact H1|].
    destruct (IH st1) as [H2|H2]; [|now right].
    rewrite H2. exact H1.
Qed.

(** X11: the quirk table only ever forces vendor, video or native.  Each
    of its sixty entries has a callback that returns 0 and stores one of
    these three types or nothing, so the first query, which runs the
    block, leaves the DMI override as it was or at one of the three; from
    boot it is never none and never nvidia_wmi_ec, and a first query that
    the DMI step decides returns vendor, video or native. *)
Theorem quirk_table_forces_vendor_video_or_native (hdr : headers)
    (m : platform) (native : bool) (auto_detect : option bool) (st : state) :
  init_done st = false ->
  let r := __acpi_video_get_backlight_type hdr m native auto_detect st in
  Forall (fun d => stores_vendor_video_or_native (callback d))
    video_detect_dmi_table /\
  (acpi_backlight_dmi (out_state r) = acpi_backlight_dmi st \/
   In (acpi_backlight_dmi (out_state r))
      [acpi_backlight_vendor; acpi_backlight_video; acpi_backlight_native]) /\
  (acpi_backlight_dmi st = acpi_backlight_undef ->
   step_of hdr m r = step2_dmi ->
   In (out_type r)
      [acpi_backlight_vendor; acpi_backlight_video; acpi_backlight_native]).
Proof.
  intro Hi. cbv zeta.
  split; [exact table_stores_vendor_video_or_native|].
  assert (Hd : acpi_backlight_dmi
                 (out_state (__acpi_video_get_backlight_type hdr m native
                               auto_detect st)) = acpi_backlight_dmi st \/
               In (acpi_backlight_dmi
                     (out_state (__acpi_video_get_backlight_type hdr m native
                                   auto_detect st)))
                  [acpi_backlight_vendor; acpi_backlight_video;
                   acpi_backlight_native]).
  { rewrite out_state_query, Hi. cbn [negb]. cbv zeta.
    assert (Hb : acpi_backlight_dmi (init_block hdr m st)
                 = acpi_backlight_dmi st \/
                 In (acpi_backlight_dmi (init_block hdr m st))
                    [acpi_backlight_vendor; acpi_backlight_video;
                     acpi_backlight_native]).
    { unfold init_block.
      pose proof (dmi_check_system_stores hdr m video_detect_dmi_table
                    table_stores_vendor_video_or_native
                    (record_call ev_dmi_check_system
                       (acpi_video_parse_cmdline m
                          (record_call ev_acpi_video_parse_cmdline st)))) as H.
      cbv zeta in H. revert H.
      generalize video_detect_dmi_table. intros table H.
      cbn [acpi_backlight_dmi set_init_done set_nvidia_wmi_ec_present
           set_video_caps record_call] in *.
      rewrite (proj1 (acpi_video_parse_cmdline_frame m _)) in H.
      exact H. }
    revert Hb. generalize (init_block hdr m st). intros st1 Hb.
    destruct native; exact Hb. }
  split; [exact Hd|].
  intros Hu Hstep.
  rewrite (proj1 (out_type_query hdr m native auto_detect st)).
  unfold precedence_policy. fold (step_of hdr m
    (__acpi_video_get_backlight_type hdr m native auto_detect st)).
  rewrite Hstep. unfold resolution_state. cbn [dmiOverride].
  destruct Hd as [Hd|Hd]; [|exact Hd].
  exfalso. rewrite Hu in Hd.
  unfold step_of, deciding_step, resolution_state in Hstep.
  cbn [cmdlineOverride dmiOverride videoCapable vendorEcPresent
       nativeAvailable] in Hstep.
  rewrite Hd in Hstep.
  revert Hstep.
  generalize (out_state (__acpi_video_get_backlight_type hdr m native
                           auto_detect st)).
  intro st'.
  destruct (acpi_backlight_cmdline st'); try discriminate;
    destruct (nvidia_wmi_ec_present st'); try discriminate;
    destruct (negb (Z.land (video_caps st') (ACPI_VIDEO_BACKLIGHT hdr) =? 0)
              && negb (native_available st'
                       && preferNativeOverVideo (acpi_osi_is_win8 m)
                            (google_cros_ec_present m)));
    try discriminate;
    destruct (native_available st'); try discriminate;
    destruct (acpi_osi_is_win8 m); discriminate.
Qed.

(** The Samsung X360 at boot: the first entry of the table forces
    vendor. *)
Lemma quirk_table_forces_vendor_video_or_native_witness :
  let r := __acpi_video_get_backlight_type linux_x86
             (with_dmi samsung_x360 win8_laptop) true None boot in
  step_of linux_x86 (with_dmi samsung_x360 win8_laptop) r = step2_dmi /\
  In (out_type r)
     [acpi_backlight_vendor; acpi_backlight_video; acpi_backlight_native].
Proof.
  split; [reflexivity|].
  exact (proj2 (proj2
           (quirk_table_forces_vendor_video_or_native linux_x86
              (with_dmi samsung_x360 win8_laptop) true None boot eq_refl))
           eq_refl eq_refl).
Defined.

(** ** The fallbacks *)

(** X12: which fallback ends the cascade depends on the firmware
    generation alone.  On firmware written for Windows 8 the query returns
    vendor only when the command line or the DMI override says vendor; on
    older firmware it returns none only when the command line or the DMI
    override says none. *)
Theorem fallback_follows_firmware_generation (hdr : headers) (m : platform)
    (native : bool) (auto_detect : option bool) (st : state) :
  let r := __acpi_video_get_backlight_type hdr m native auto_detect st in
  (acpi_osi_is_win8 m = true ->
   out_type r = acpi_backlight_vendor ->
   acpi_backlight_cmdline (out_state r) = acpi_backlight_vendor \/
   acpi_backlight_dmi (out_state r) = acpi_backlight_vendor) /\
  (acpi_osi_is_win8 m = false ->
   out_type r = acpi_backlight_none ->
   acpi_backlight_cmdline (out_state r) = acpi_backlight_none \/
   acpi_backlight_dmi (out_state r) = acpi_backlight_none).
Proof.
  cbv zeta.
  rewrite (proj1 (out_type_query hdr m native auto_detect st)).
  unfold precedence_policy, deciding_step, resolution_state.
  cbn [cmdlineOverride dmiOverride videoCapable vendorEcPresent nativeAvailable].
  generalize (out_state
                (__acpi_video_get_backlight_type hdr m native auto_detect st)).
  intro st'.
  split; intros Hw; rewrite Hw;
    destruct (acpi_backlight_cmdline st'); try (intro H; now left);
    destruct (acpi_backlight_dmi st'); try (intro H; now right);
    destruct (nvidia_wmi_ec_present st'); try discriminate;
    destruct (negb (Z.land (video_caps st') (ACPI_VIDEO_BACKLIGHT hdr) =? 0)
              && negb (native_available st'
                       && preferNativeOverVideo _ (google_cros_ec_present m)));
    try discriminate;
    destruct (native_available st'); discriminate.
Qed.

(** Booted with acpi_backlight=vendor on Windows 8 firmware without ACPI
    video: vendor is returned, and it is the command line that says so;
    without the parameter the same machine gets none. *)
Lemma fallback_follows_firmware_generation_witness :
  out_type (__acpi_video_get_backlight_type linux_x86 win8_no_video
              false None boot) = acpi_backlight_none /\
  (acpi_backlight_cmdline
     (out_state (__acpi_video_get_backlight_type linux_x86
                   (with_cmdline "vendor" win8_no_video) false None boot))
   = acpi_backlight_vendor \/
   acpi_backlight_dmi
     (out_state (__acpi_video_get_backlight_type linux_x86
                   (with_cmdline "vendor" win8_no_video) false None boot))
   = acpi_backlight_vendor).
Proof.
  split; [reflexivity|].
  exact (proj1 (fallback_follows_firmware_generation linux_x86
                  (with_cmdline "vendor" win8_no_video) false None boot)
           eq_refl eq_refl).
Defined.

(** X13: a machine with ACPI video backlight support never reaches the
    fallbacks.  With no override and no vendor EC, when the backlight bit
    is in the cached capabilities the query returns native if native is
    available and preferred (Windows 8 firmware or a Chrome OS EC), and
    video otherwise, and it reports autodetection. *)
Theorem video_capable_never_falls_back (hdr : headers) (m : platform)
    (native : bool) (auto_detect : option bool) (st : state) :
  let r := __acpi_video_get_backlight_type hdr m native auto_detect st in
  acpi_backlight_cmdline (out_state r) = acpi_backlight_undef ->
  acpi_backlight_dmi (out_state r) = acpi_backlight_undef ->
  nvidia_wmi_ec_present (out_state r) = false ->
  Z.land (video_caps (out_state r)) (ACPI_VIDEO_BACKLIGHT hdr) <> 0 ->
  out_type r =
  (if native_available (out_state r) && prefer_native_over_acpi_video m
   then acpi_backlight_native else acpi_backlight_video) /\
  out_auto_detect r = option_map (fun _ => true) auto_detect.
Proof.
  cbv zeta.
  destruct (out_type_query hdr m native auto_detect st) as (Ht & Ha).
  cbv zeta in Ht, Ha. rewrite Ht, Ha.
  unfold step_of, precedence_policy, deciding_step, resolution_state,
    preferNativeOverVideo, prefer_native_over_acpi_video.
  cbn [cmdlineOverride dmiOverride videoCapable vendorEcPresent nativeAvailable].
  generalize (out_state
                (__acpi_video_get_backlight_type hdr m native auto_detect st)).
  intros st' Hc Hd Hn Hv.
  rewrite Hc, Hd, Hn.
  apply Z.eqb_neq in Hv. rewrite Hv. cbn [negb andb].
  destruct (native_available st'), (acpi_osi_is_win8 m),
    (google_cros_ec_present m); cbn; split; reflexivity.
Qed.

(** The pre-Windows 8 laptop keeps ACPI video even after the GPU driver
    has announced itself; its Windows 8 sibling switches to native. *)
Lemma video_capable_never_falls_back_witness :
  out_type (__acpi_video_get_backlight_type linux_x86 win7_laptop
              true None boot) = acpi_backlight_video /\
  out_type (__acpi_video_get_backlight_type linux_x86 win8_laptop
              true None boot) = acpi_backlight_native.
Proof.
  split.
  - refine (proj1 (video_capable_never_falls_back linux_x86 win7_laptop
                     true None boot eq_refl eq_refl eq_refl _)).
    discriminate.
  - refine (proj1 (video_capable_never_falls_back linux_x86 win8_laptop
                     true None boot eq_refl eq_refl eq_refl _)).
    discriminate.
Defined.

(** ** What a query reads once the block has run *)

(** X14: once the block has run, a query reads the platform only through
    the Windows 8 test and the two Chrome OS EC lookups.  On two platforms
    that agree on these, however much their boot parameter, DMI strings,
    ACPI namespace, WMI answer or PCI bus differ, the same call gives the
    same outcome. *)
Theorem initialised_query_reads_osi_and_cros_only (hdr : headers)
    (m m' : platform) (native : bool) (auto_detect : option bool) (st : state) :
  init_done st = true ->
  acpi_osi_is_win8 m = acpi_osi_is_win8 m' ->
  google_cros_ec_present m = google_cros_ec_present m' ->
  __acpi_video_get_backlight_type hdr m native auto_detect st
  = __acpi_video_get_backlight_type hdr m' native auto_detect st.
Proof.
  intros Hi Hw Hg.
  unfold __acpi_video_get_backlight_type, prefer_native_over_acpi_video.
  rewrite Hi, Hw, Hg. reflexivity.
Qed.

(** After a first query on the plain Windows 8 laptop, the same machine
    seen with a boot parameter and the DMI strings of a Samsung X360
    answers as before. *)
Lemma initialised_query_reads_osi_and_cros_only_witness :
  let st := out_state (__acpi_video_get_backlight_type linux_x86 win8_laptop
                         false None boot) in
  __acpi_video_get_backlight_type linux_x86 win8_laptop true (Some false) st
  = __acpi_video_get_backlight_type linux_x86
      (with_cmdline "vendor" (with_dmi samsung_x360 win8_laptop))
      true (Some false) st.
Proof.
  exact (initialised_query_reads_osi_and_cros_only linux_x86 win8_laptop
           (with_cmdline "vendor" (with_dmi samsung_x360 win8_laptop))
           true (Some false)
           (out_state (__acpi_video_get_backlight_type linux_x86 win8_laptop
                         false None boot))
           eq_refl eq_refl eq_refl).
Defined.
